(** * Shoplocal: environment configuration ([src/lib/config.ts])

    A shallow embedding of the configuration module of the storefront:
    the three environment readers ([getEnv], [getEnvBoolean],
    [getEnvNumber]), the [config] object built from them at module load,
    and the accessors ([getAuthHeader], [isFeatureEnabled], [getApiUrl]).

    JavaScript values are modelled as the code has them:
    - a string is its sequence of UTF-16 code units ([jsstring]);
    - a number is an IEEE 754 binary64 value ([spec_float], with the
      rounding of the Standard Library's [SpecFloat]);
    - [import.meta.env] and [localStorage] are finite maps from strings
      to strings;
    - an expression that can raise (a property read on [undefined],
      [btoa] on a string outside Latin-1, [window.localStorage] in a
      browser that denies storage) is a computation in the
      [completion] monad, so that "never throws" is a theorem about the
      guards of the code and not a property of the encoding. *)

From Stdlib Require Import ZArith NArith String Ascii List Bool Lia.
From Stdlib Require Import Floats.SpecFloat.
From stdpp Require Import base option list gmap.
Import ListNotations.

Local Open Scope N_scope.

(** ** JavaScript strings *)

Module JS.

(** A string is a list of 16-bit code units. *)
Definition jsstring := list N.

(** The code units of an ASCII literal of the source. *)
Fixpoint js (s : string) : jsstring :=
  match s with
  | EmptyString => []
  | String a r => N_of_ascii a :: js r
  end.

Arguments js : simpl never.

(** [ToBoolean] on a string: the empty string is the only falsy one. *)
Definition truthy (s : jsstring) : bool :=
  match s with
  | [] => false
  | _ :: _ => true
  end.

(** [===] on two strings. *)
Fixpoint str_eqb (a b : jsstring) : bool :=
  match a, b with
  | [], [] => true
  | x :: a', y :: b' => (x =? y) && str_eqb a' b'
  | _, _ => false
  end.

(** [s.startsWith(p)]. *)
Fixpoint startsWith (p s : jsstring) : bool :=
  match p, s with
  | [], _ => true
  | x :: p', y :: s' => (x =? y) && startsWith p' s'
  | _ :: _, [] => false
  end.

(** ** Completions: a value, or a thrown exception *)

Inductive exn :=
  | TypeError              (* property read on undefined or null *)
  | ReferenceError         (* read of an undeclared global *)
  | InvalidCharacterError  (* DOMException raised by btoa *)
  | SecurityError.         (* DOMException raised by a denied storage *)

Inductive completion (A : Type) :=
  | Normal (a : A)
  | Throw (e : exn).
Arguments Normal {A} a.
Arguments Throw {A} e.

#[global] Instance completion_ret : MRet completion := fun A a => Normal a.

#[global] Instance completion_bind : MBind completion := fun A B k c =>
  match c with
  | Normal a => k a
  | Throw e => Throw e
  end.

Definition returns {A} (c : completion A) : Prop := exists a, c = Normal a.

End JS.
Export JS.

(** ** The host: [import.meta] and [window] *)

(** [import.meta.env] as Vite builds it: the user's [VITE_*] variables,
    all strings, and the build-mode flags [DEV] and [PROD]. *)
Record ImportMetaEnv := {
  vars : gmap jsstring jsstring;
  DEV : option bool;
  PROD : option bool;
}.

(** [import.meta] may be missing (the code tests [typeof import.meta]),
    and when present its [env] property may be missing or falsy. *)
Inductive ImportMeta :=
  | MetaUndefined
  | MetaObject (env : option ImportMetaEnv).

(** [typeof import.meta !== 'undefined'] never throws. *)
Definition meta_defined (m : ImportMeta) : bool :=
  match m with
  | MetaUndefined => false
  | MetaObject _ => true
  end.

(** [import.meta.env]: a property read, a [TypeError] on [undefined]. *)
Definition meta_env (m : ImportMeta) : completion (option ImportMetaEnv) :=
  match m with
  | MetaUndefined => Throw TypeError
  | MetaObject e => Normal e
  end.

(** [env[key]]: a [TypeError] when [env] is [undefined], otherwise the
    value of the property, [None] standing for [undefined].  The
    environment is read as its own string-valued properties, which is
    what it holds under the [VITE_*] names that the module passes; the
    names inherited from [Object.prototype] ([constructor],
    [toString], ...) and the boolean [DEV] and [PROD] are not keys of
    [vars], and the readers, private to the module, are never called
    with them. *)
Definition env_index (e : option ImportMetaEnv) (key : jsstring)
  : completion (option jsstring) :=
  match e with
  | None => Throw TypeError
  | Some r => Normal (vars r !! key)
  end.

(** [env.DEV] and [env.PROD]. *)
Definition env_flag (f : ImportMetaEnv -> option bool) (e : option ImportMetaEnv)
  : completion (option bool) :=
  match e with
  | None => Throw TypeError
  | Some r => Normal (f r)
  end.

(** [v || d] for a property value [v] that is a string or [undefined]. *)
Definition or_default (v : option jsstring) (d : jsstring) : jsstring :=
  match v with
  | Some s => if truthy s then s else d
  | None => d
  end.

(** ** [Number(string)]: the StringToNumber conversion of ECMAScript

    A built-in of the language, written here after ECMA-262 (7.1.4.1):
    the string is trimmed of white space, the empty string is [+0], a
    string that is no numeric literal is NaN, and the value of a literal
    is rounded to the nearest binary64, ties to even. *)

Module JSNumber.

Definition prec : Z := 53.
Definition emax : Z := 1024.

(** The binary64 value of an integer, rounded to nearest, ties to even. *)
Definition of_Z (z : Z) : spec_float := binary_normalize prec emax z 0 false.

(** [StrWhiteSpaceChar]: white space and line terminators. *)
Definition is_white (c : N) : bool :=
  (c =? 0x09) || (c =? 0x0A) || (c =? 0x0B) || (c =? 0x0C) || (c =? 0x0D)
  || (c =? 0x20) || (c =? 0xA0) || (c =? 0x1680)
  || ((0x2000 <=? c) && (c <=? 0x200A))
  || (c =? 0x2028) || (c =? 0x2029) || (c =? 0x202F) || (c =? 0x205F)
  || (c =? 0x3000) || (c =? 0xFEFF).

Fixpoint skip_white (s : jsstring) : jsstring :=
  match s with
  | c :: r => if is_white c then skip_white r else s
  | [] => []
  end.

Definition trim (s : jsstring) : jsstring :=
  rev (skip_white (rev (skip_white s))).

(** The value of a digit in a base up to 16, when it is one. *)
Definition digit (base c : N) : option N :=
  let v :=
    if (48 <=? c) && (c <=? 57) then Some (c - 48)
    else if (97 <=? c) && (c <=? 102) then Some (c - 87)
    else if (65 <=? c) && (c <=? 70) then Some (c - 55)
    else None in
  match v with
  | Some d => if d <? base then Some d else None
  | None => None
  end.

(** The longest prefix of digits, as their values, and what follows. *)
Fixpoint span_digits (base : N) (s : jsstring) : list N * jsstring :=
  match s with
  | [] => ([], [])
  | c :: r =>
      match digit base c with
      | Some d => let '(ds, rest) := span_digits base r in (d :: ds, rest)
      | None => ([], s)
      end
  end.

Definition digits_value (base : N) (ds : list N) : Z :=
  fold_left (fun acc d => acc * Z.of_N base + Z.of_N d)%Z ds 0%Z.

Fixpoint strip_zeros (ds : list N) : list N :=
  match ds with
  | 0 :: r => strip_zeros r
  | _ => ds
  end.

(** [NonDecimalIntegerLiteral]: 0x, 0o or 0b and at least one digit. *)
Definition parse_nondecimal (s : jsstring) : option Z :=
  match s with
  | 48 :: c :: r =>
      let base :=
        if (c =? 120) || (c =? 88) then Some 16
        else if (c =? 111) || (c =? 79) then Some 8
        else if (c =? 98) || (c =? 66) then Some 2
        else None in
      match base with
      | Some b =>
          match span_digits b r with
          | ((_ :: _) as ds, []) => Some (digits_value b ds)
          | _ => None
          end
      | None => None
      end
  | _ => None
  end.

(** An optional sign: whether it is a minus, and what follows. *)
Definition split_sign (s : jsstring) : bool * jsstring :=
  match s with
  | 43 :: r => (false, r)
  | 45 :: r => (true, r)
  | _ => (false, s)
  end.

(** [ExponentPart], optional, up to the end of the string. *)
Definition parse_exponent (s : jsstring) : option Z :=
  match s with
  | [] => Some 0%Z
  | c :: r =>
      if (c =? 101) || (c =? 69) then
        let '(neg, r') := split_sign r in
        match span_digits 10 r' with
        | ((_ :: _) as ds, []) =>
            Some (if neg then - digits_value 10 ds else digits_value 10 ds)%Z
        | _ => None
        end
      else None
  end.

(** [StrUnsignedDecimalLiteral] other than Infinity: the digits of the
    integer and fraction parts read as one integer, the power of ten
    that scales it, and the number of its significant digits. *)
Definition parse_unsigned_decimal (s : jsstring) : option (Z * Z * Z) :=
  let '(ip, r1) := span_digits 10 s in
  let '(fp, r2) :=
    match r1 with
    | 46 :: r => span_digits 10 r
    | _ => ([], r1)
    end in
  match ip ++ fp with
  | [] => None
  | ds =>
      match parse_exponent r2 with
      | Some e =>
          Some (digits_value 10 ds, (e - Z.of_nat (length fp))%Z,
                Z.of_nat (length (strip_zeros ds)))
      | None => None
      end
  end.

(** The binary64 value nearest to [mant * 10^e], ties to even, where
    [mant] has [n] significant decimal digits.  A value of [10^400] or
    more is infinite and one under [10^-400] is zero, whatever the
    digits; between the two the rounding is computed on the exact
    quotient. *)
Definition of_decimal (sign : bool) (mant e n : Z) : spec_float :=
  match mant with
  | Zpos p =>
      if (400 <? e + n)%Z then S754_infinity sign
      else if (e + n <? -400)%Z then S754_zero sign
      else if (0 <=? e)%Z then
        binary_round prec emax sign (p * Z.to_pos (10 ^ e)) 0
      else
        let '(mz, ez, lz) :=
          SFdiv_core_binary prec emax (Zpos p) 0 (10 ^ (- e))%Z 0 in
        binary_round_aux prec emax sign mz ez lz
  | _ => S754_zero sign
  end.

(** [Number(s)] for a string [s]. *)
Definition Number (s : jsstring) : spec_float :=
  match trim s with
  | [] => S754_zero false
  | t =>
      match parse_nondecimal t with
      | Some z => of_Z z
      | None =>
          let '(sign, u) := split_sign t in
          if str_eqb u (js "Infinity") then S754_infinity sign
          else
            match parse_unsigned_decimal u with
            | Some (mant, e, n) => of_decimal sign mant e n
            | None => S754_nan
            end
      end
  end.

End JSNumber.
Export JSNumber.

(** ** [btoa] and [atob]: base64 of a binary string

    Built-ins of the browser, written here after the HTML standard
    (forgiving-base64) and RFC 4648. *)

Module Base64.

(** The character of a 6-bit value in the base64 alphabet. *)
Definition enc (v : N) : N :=
  if v <? 26 then v + 65
  else if v <? 52 then v + 71
  else if v <? 62 then v - 4
  else if v =? 62 then 43
  else 47.

Definition pad : N := 61.

(** The second and third 6-bit values of a group of three bytes. *)
Definition sextet2 (a b : N) : N :=
  N.lor (N.shiftl (N.land a 3) 4) (N.shiftr b 4).

Definition sextet3 (b c : N) : N :=
  N.lor (N.shiftl (N.land b 15) 2) (N.shiftr c 6).

(** Three bytes give four characters; one or two trailing bytes are
    completed with zero bits and the output with [=]. *)
Fixpoint encode (bs : list N) : jsstring :=
  match bs with
  | [] => []
  | [a] => [enc (N.shiftr a 2); enc (sextet2 a 0); pad; pad]
  | [a; b] => [enc (N.shiftr a 2); enc (sextet2 a b); enc (sextet3 b 0); pad]
  | a :: b :: c :: r =>
      enc (N.shiftr a 2) :: enc (sextet2 a b) :: enc (sextet3 b c)
      :: enc (N.land c 63) :: encode r
  end.

(** A binary string: every code unit is a byte. *)
Definition latin1 (s : jsstring) : bool := forallb (fun c => c <=? 255) s.

(** [btoa(s)] raises [InvalidCharacterError] when [s] has a code unit
    above U+00FF. *)
Definition btoa (s : jsstring) : completion jsstring :=
  if latin1 s then Normal (encode s) else Throw InvalidCharacterError.

(** The 6-bit value of a character of the alphabet. *)
Definition dec (c : N) : option N :=
  if (65 <=? c) && (c <=? 90) then Some (c - 65)
  else if (97 <=? c) && (c <=? 122) then Some (c - 71)
  else if (48 <=? c) && (c <=? 57) then Some (c + 4)
  else if c =? 43 then Some 62
  else if c =? 47 then Some 63
  else None.

Definition byte1 (v1 v2 : N) : N := N.lor (N.shiftl v1 2) (N.shiftr v2 4).

Definition byte2 (v2 v3 : N) : N :=
  N.lor (N.shiftl (N.land v2 15) 4) (N.shiftr v3 2).

Definition byte3 (v3 v4 : N) : N := N.lor (N.shiftl (N.land v3 3) 6) v4.

(** The bytes of a padded base64 string: what [atob] returns on the
    output of [btoa].  It serves to check [encode]. *)
Fixpoint decode (s : jsstring) : option (list N) :=
  match s with
  | [] => Some []
  | c1 :: c2 :: c3 :: c4 :: r =>
      v1 ← dec c1;
      v2 ← dec c2;
      if c4 =? pad then
        match r with
        | [] =>
            if c3 =? pad then Some [byte1 v1 v2]
            else v3 ← dec c3; Some [byte1 v1 v2; byte2 v2 v3]
        | _ :: _ => None
        end
      else
        v3 ← dec c3;
        v4 ← dec c4;
        rest ← decode r;
        Some (byte1 v1 v2 :: byte2 v2 v3 :: byte3 v3 v4 :: rest)
  | _ => None
  end.

End Base64.
Export Base64.

(** ** [String.prototype.split] on a one-character separator *)

(** [split_on sep cur s] cuts [s] at every [sep]; [cur] is the segment
    being read, in reverse.  The result is never empty: a string with no
    separator, the empty one included, is its own single segment. *)
Fixpoint split_on (sep : N) (cur : jsstring) (s : jsstring) : list jsstring :=
  match s with
  | [] => [rev cur]
  | c :: r =>
      if c =? sep then rev cur :: split_on sep [] r
      else split_on sep (c :: cur) r
  end.

Definition split (sep : N) (s : jsstring) : list jsstring := split_on sep [] s.

Definition comma : N := 44.

(** [xs.filter(Boolean)] on an array of strings. *)
Definition filter_Boolean (xs : list jsstring) : list jsstring :=
  List.filter truthy xs.

(** [xs.join(sep)], the inverse of [split] *)
Fixpoint join (sep : N) (xs : list jsstring) : jsstring :=
  match xs with
  | [] => []
  | [x] => x
  | x :: r => x ++ sep :: join sep r
  end.

(** ** The environment readers (config.ts, lines 9-24) *)

Section Readers.
Variable m : ImportMeta.

(** [getEnv(key, defaultValue)].  A call that omits [defaultValue]
    passes the empty string, the default of the parameter. *)
Definition getEnv (key defaultValue : jsstring) : completion jsstring :=
  if meta_defined m then
    e ← meta_env m;
    if bool_decide (is_Some e) then
      e' ← meta_env m;
      v ← env_index e' key;
      mret (or_default v defaultValue)
    else mret defaultValue
  else mret defaultValue.

(** [getEnvBoolean(key, defaultValue)]: [value === 'true' || defaultValue]. *)
Definition getEnvBoolean (key : jsstring) (defaultValue : bool) : completion bool :=
  value ← getEnv key [];
  mret (str_eqb value (js "true") || defaultValue).

(** [getEnvNumber(key, defaultValue)]:
    [value ? Number(value) : defaultValue]. *)
Definition getEnvNumber (key : jsstring) (defaultValue : spec_float)
  : completion spec_float :=
  value ← getEnv key [];
  mret (if truthy value then Number value else defaultValue).

End Readers.

(** ** The configuration object (config.ts, lines 26-119) *)

Record Api := {
  geodir : jsstring;
  wordpress : jsstring;
  dokan : jsstring;
  timeout : spec_float;
}.

Record Auth := {
  username : jsstring;
  appPassword : jsstring;
  token : jsstring;
  jwtSecret : jsstring;
  jwtExpiration : jsstring;
}.

Record Stripe := { publishableKey : jsstring; secretKey : jsstring }.

Record Paypal := { clientId : jsstring; secret : jsstring }.

Record Services := {
  unsplash : jsstring;
  googleMaps : jsstring;
  stripe : Stripe;
  paypal : Paypal;
}.

Record App := {
  env : jsstring;
  url : jsstring;
  isDevelopment : option bool;
  isProduction : option bool;
}.

Record Pagination := { defaultPerPage : spec_float; maxPerPage : spec_float }.

Record Features := {
  reviews : bool;
  wishlist : bool;
  chat : bool;
  notifications : bool;
}.

Record Smtp := {
  host : jsstring;
  port : spec_float;
  user : jsstring;
  password : jsstring;
}.

Record Email := { smtp : Smtp; from : jsstring; fromName : jsstring }.

Record Aws := {
  accessKeyId : jsstring;
  secretAccessKey : jsstring;
  region : jsstring;
  bucket : jsstring;
}.

Record Storage := { cdnUrl : jsstring; aws : Aws }.

Record Analytics := {
  googleAnalytics : jsstring;
  facebookPixel : jsstring;
  sentry : jsstring;
}.

Record RateLimit := { requests : spec_float; window : spec_float }.

Record Security := {
  corsOrigins : list jsstring;
  rateLimit : RateLimit;
  sessionSecret : jsstring;
}.

Record Config := {
  api : Api;
  auth : Auth;
  services : Services;
  app : App;
  pagination : Pagination;
  features : Features;
  email : Email;
  storage : Storage;
  analytics : Analytics;
  security : Security;
}.

Section Module_load.
Variable m : ImportMeta.

(** [typeof import.meta !== 'undefined' && import.meta.env &&
    import.meta.env.DEV] (and the same for [PROD]): the value of the
    first falsy operand, or of the last one; [None] is [undefined]. *)
Definition build_flag (f : ImportMetaEnv -> option bool) : completion (option bool) :=
  if meta_defined m then
    e ← meta_env m;
    if bool_decide (is_Some e) then
      e' ← meta_env m;
      env_flag f e'
    else mret None
  else mret (Some false).

(** The object literal, its properties evaluated in source order. *)
Definition config : completion Config :=
  geodir_ ← getEnv m (js "VITE_GEODIR_API_URL")
              (js "https://shoplocal.kinsta.cloud/wp-json/geodir/v2");
  wordpress_ ← getEnv m (js "VITE_WP_API_URL")
                 (js "https://shoplocal.kinsta.cloud/wp-json/wp/v2");
  dokan_ ← getEnv m (js "VITE_DOKAN_API_URL")
             (js "https://shoplocal.kinsta.cloud/wp-json/dokan/v1");
  timeout_ ← getEnvNumber m (js "VITE_API_TIMEOUT") (of_Z 10000);
  username_ ← getEnv m (js "VITE_WP_USERNAME") [];
  appPassword_ ← getEnv m (js "VITE_WP_APP_PASSWORD") [];
  token_ ← getEnv m (js "VITE_API_AUTH_TOKEN") [];
  jwtSecret_ ← getEnv m (js "VITE_JWT_SECRET") [];
  jwtExpiration_ ← getEnv m (js "VITE_JWT_EXPIRATION") (js "7d");
  unsplash_ ← getEnv m (js "VITE_UNSPLASH_ACCESS_KEY") [];
  googleMaps_ ← getEnv m (js "VITE_GOOGLE_MAPS_API_KEY") [];
  publishableKey_ ← getEnv m (js "VITE_STRIPE_PUBLISHABLE_KEY") [];
  secretKey_ ← getEnv m (js "VITE_STRIPE_SECRET_KEY") [];
  clientId_ ← getEnv m (js "VITE_PAYPAL_CLIENT_ID") [];
  secret_ ← getEnv m (js "VITE_PAYPAL_SECRET") [];
  env_ ← getEnv m (js "VITE_APP_ENV") (js "development");
  url_ ← getEnv m (js "VITE_APP_URL") (js "http://localhost:5173");
  isDevelopment_ ← build_flag DEV;
  isProduction_ ← build_flag PROD;
  defaultPerPage_ ← getEnvNumber m (js "VITE_DEFAULT_PER_PAGE") (of_Z 20);
  maxPerPage_ ← getEnvNumber m (js "VITE_MAX_PER_PAGE") (of_Z 100);
  reviews_ ← getEnvBoolean m (js "VITE_ENABLE_REVIEWS") true;
  wishlist_ ← getEnvBoolean m (js "VITE_ENABLE_WISHLIST") true;
  chat_ ← getEnvBoolean m (js "VITE_ENABLE_CHAT") false;
  notifications_ ← getEnvBoolean m (js "VITE_ENABLE_NOTIFICATIONS") true;
  host_ ← getEnv m (js "VITE_SMTP_HOST") [];
  port_ ← getEnvNumber m (js "VITE_SMTP_PORT") (of_Z 587);
  user_ ← getEnv m (js "VITE_SMTP_USER") [];
  password_ ← getEnv m (js "VITE_SMTP_PASSWORD") [];
  from_ ← getEnv m (js "VITE_SMTP_FROM") (js "noreply@shoplocal.com");
  fromName_ ← getEnv m (js "VITE_SMTP_FROM_NAME") (js "ShopLocal Marketplace");
  cdnUrl_ ← getEnv m (js "VITE_CDN_URL") [];
  accessKeyId_ ← getEnv m (js "VITE_AWS_ACCESS_KEY_ID") [];
  secretAccessKey_ ← getEnv m (js "VITE_AWS_SECRET_ACCESS_KEY") [];
  region_ ← getEnv m (js "VITE_AWS_REGION") (js "us-east-1");
  bucket_ ← getEnv m (js "VITE_AWS_S3_BUCKET") [];
  googleAnalytics_ ← getEnv m (js "VITE_GA_TRACKING_ID") [];
  facebookPixel_ ← getEnv m (js "VITE_FB_PIXEL_ID") [];
  sentry_ ← getEnv m (js "VITE_SENTRY_DSN") [];
  cors_ ← getEnv m (js "VITE_CORS_ORIGINS") [];
  requests_ ← getEnvNumber m (js "VITE_RATE_LIMIT_REQUESTS") (of_Z 100);
  window_ ← getEnvNumber m (js "VITE_RATE_LIMIT_WINDOW") (of_Z 900000);
  sessionSecret_ ← getEnv m (js "VITE_SESSION_SECRET") [];
  mret {|
    api := {| geodir := geodir_; wordpress := wordpress_; dokan := dokan_;
              timeout := timeout_ |};
    auth := {| username := username_; appPassword := appPassword_;
               token := token_; jwtSecret := jwtSecret_;
               jwtExpiration := jwtExpiration_ |};
    services := {| unsplash := unsplash_; googleMaps := googleMaps_;
                   stripe := {| publishableKey := publishableKey_;
                                secretKey := secretKey_ |};
                   paypal := {| clientId := clientId_; secret := secret_ |} |};
    app := {| env := env_; url := url_; isDevelopment := isDevelopment_;
              isProduction := isProduction_ |};
    pagination := {| defaultPerPage := defaultPerPage_;
                     maxPerPage := maxPerPage_ |};
    features := {| reviews := reviews_; wishlist := wishlist_; chat := chat_;
                   notifications := notifications_ |};
    email := {| smtp := {| host := host_; port := port_; user := user_;
                           password := password_ |};
                from := from_; fromName := fromName_ |};
    storage := {| cdnUrl := cdnUrl_;
                  aws := {| accessKeyId := accessKeyId_;
                            secretAccessKey := secretAccessKey_;
                            region := region_; bucket := bucket_ |} |};
    analytics := {| googleAnalytics := googleAnalytics_;
                    facebookPixel := facebookPixel_; sentry := sentry_ |};
    security := {| corsOrigins := filter_Boolean (split comma cors_);
                   rateLimit := {| requests := requests_; window := window_ |};
                   sessionSecret := sessionSecret_ |};
  |}.

End Module_load.

(** ** The accessors (config.ts, lines 121-158) *)

(** The global [window]: missing outside a browser; in a browser that
    denies storage (blocked site data, a sandboxed frame) the getter of
    [localStorage] raises; otherwise [localStorage] is a store, or is
    missing or null. *)
Inductive Window :=
  | WindowUndefined
  | WindowDenied
  | WindowObject (localStorage : option (gmap jsstring jsstring)).

Definition window_defined (w : Window) : bool :=
  match w with
  | WindowUndefined => false
  | WindowDenied => true
  | WindowObject _ => true
  end.

(** The identifiers [window.localStorage] and [localStorage]: a
    [ReferenceError] where there is no [window], a [SecurityError]
    where storage is denied. *)
Definition window_localStorage (w : Window)
  : completion (option (gmap jsstring jsstring)) :=
  match w with
  | WindowUndefined => Throw ReferenceError
  | WindowDenied => Throw SecurityError
  | WindowObject ls => Normal ls
  end.

(** [ls.getItem(key)]: [None] is the [null] of a missing key. *)
Definition getItem (ls : option (gmap jsstring jsstring)) (key : jsstring)
  : completion (option jsstring) :=
  match ls with
  | None => Throw TypeError
  | Some store => Normal (store !! key)
  end.

(** The template literal [`Basic ${t}`]. *)
Definition Basic (t : jsstring) : jsstring := js "Basic " ++ t.

(** [keyof typeof config.features] *)
Inductive FeatureName := Freviews | Fwishlist | Fchat | Fnotifications.

(** The services of [getApiUrl] *)
Inductive ServiceName := Sgeodir | Swordpress | Sdokan.

Section Accessors.
Variable c : Config.
Variable w : Window.

(** [getAuthHeader()].  The block guarded by [window.localStorage]
    either returns early ([Some]) or falls through ([None]) to the
    final [return '']. *)
Definition getAuthHeader : completion jsstring :=
  if truthy (token (auth c)) then mret (Basic (token (auth c)))
  else if truthy (username (auth c)) && truthy (appPassword (auth c)) then
    t ← btoa (username (auth c) ++ js ":" ++ appPassword (auth c));
    mret (Basic t)
  else
    early ←
      (if window_defined w then
         ls ← window_localStorage w;
         if bool_decide (is_Some ls) then
           ls' ← window_localStorage w;
           storedToken ← getItem ls' (js "authToken");
           match storedToken with
           | Some st => if truthy st then mret (Some (Basic st)) else mret None
           | None => mret None
           end
         else mret None
       else mret None);
    match early with
    | Some header => mret header
    | None => mret []
    end.

(** [isFeatureEnabled(feature)] *)
Definition isFeatureEnabled (feature : FeatureName) : bool :=
  match feature with
  | Freviews => reviews (features c)
  | Fwishlist => wishlist (features c)
  | Fchat => chat (features c)
  | Fnotifications => notifications (features c)
  end.

(** [getApiUrl(service)] *)
Definition getApiUrl (service : ServiceName) : jsstring :=
  match service with
  | Sgeodir => geodir (api c)
  | Swordpress => wordpress (api c)
  | Sdokan => dokan (api c)
  end.

End Accessors.

(** * Vocabulary of the statements *)

(** ** What the host exposes for a key *)

(** The value of the environment variable [key]: [None] when the
    variable is absent or there is no environment to read. *)
Definition env_value (m : ImportMeta) (key : jsstring) : option jsstring :=
  match m with
  | MetaObject (Some e) => vars e !! key
  | _ => None
  end.

(** A variable that is absent, or set to the empty string. *)
Definition unset (m : ImportMeta) (key : jsstring) : Prop :=
  env_value m key = None \/ env_value m key = Some [].

(** What the browser gives for the stored token: nothing without a
    [window] or a [localStorage], the entry [authToken] of a readable
    storage, and a [SecurityError] where storage is denied. *)
Definition storage_read (w : Window) : completion (option jsstring) :=
  match w with
  | WindowUndefined => Normal None
  | WindowDenied => Throw SecurityError
  | WindowObject None => Normal None
  | WindowObject (Some store) => Normal (store !! js "authToken")
  end.

(** The header that the storage block gives for what it read. *)
Definition header_of_stored (r : option jsstring) : jsstring :=
  match r with
  | Some st => if truthy st then Basic st else []
  | None => []
  end.

(** ** The recognized keys *)

(** Every key that [config] reads, with the default passed at the call
    and the field that receives the result, by type of reader. *)
Definition string_keys : list (jsstring * jsstring * (Config -> jsstring)) :=
  [ (js "VITE_GEODIR_API_URL",
     js "https://shoplocal.kinsta.cloud/wp-json/geodir/v2",
     fun c => geodir (api c));
    (js "VITE_WP_API_URL",
     js "https://shoplocal.kinsta.cloud/wp-json/wp/v2",
     fun c => wordpress (api c));
    (js "VITE_DOKAN_API_URL",
     js "https://shoplocal.kinsta.cloud/wp-json/dokan/v1",
     fun c => dokan (api c));
    (js "VITE_WP_USERNAME", [], fun c => username (auth c));
    (js "VITE_WP_APP_PASSWORD", [], fun c => appPassword (auth c));
    (js "VITE_API_AUTH_TOKEN", [], fun c => token (auth c));
    (js "VITE_JWT_SECRET", [], fun c => jwtSecret (auth c));
    (js "VITE_JWT_EXPIRATION", js "7d", fun c => jwtExpiration (auth c));
    (js "VITE_UNSPLASH_ACCESS_KEY", [], fun c => unsplash (services c));
    (js "VITE_GOOGLE_MAPS_API_KEY", [], fun c => googleMaps (services c));
    (js "VITE_STRIPE_PUBLISHABLE_KEY", [],
     fun c => publishableKey (stripe (services c)));
    (js "VITE_STRIPE_SECRET_KEY", [], fun c => secretKey (stripe (services c)));
    (js "VITE_PAYPAL_CLIENT_ID", [], fun c => clientId (paypal (services c)));
    (js "VITE_PAYPAL_SECRET", [], fun c => secret (paypal (services c)));
    (js "VITE_APP_ENV", js "development", fun c => env (app c));
    (js "VITE_APP_URL", js "http://localhost:5173", fun c => url (app c));
    (js "VITE_SMTP_HOST", [], fun c => host (smtp (email c)));
    (js "VITE_SMTP_USER", [], fun c => user (smtp (email c)));
    (js "VITE_SMTP_PASSWORD", [], fun c => password (smtp (email c)));
    (js "VITE_SMTP_FROM", js "noreply@shoplocal.com", fun c => from (email c));
    (js "VITE_SMTP_FROM_NAME", js "ShopLocal Marketplace",
     fun c => fromName (email c));
    (js "VITE_CDN_URL", [], fun c => cdnUrl (storage c));
    (js "VITE_AWS_ACCESS_KEY_ID", [], fun c => accessKeyId (aws (storage c)));
    (js "VITE_AWS_SECRET_ACCESS_KEY", [],
     fun c => secretAccessKey (aws (storage c)));
    (js "VITE_AWS_REGION", js "us-east-1", fun c => region (aws (storage c)));
    (js "VITE_AWS_S3_BUCKET", [], fun c => bucket (aws (storage c)));
    (js "VITE_GA_TRACKING_ID", [], fun c => googleAnalytics (analytics c));
    (js "VITE_FB_PIXEL_ID", [], fun c => facebookPixel (analytics c));
    (js "VITE_SENTRY_DSN", [], fun c => sentry (analytics c));
    (js "VITE_SESSION_SECRET", [], fun c => sessionSecret (security c)) ].

Definition numeric_keys : list (jsstring * spec_float * (Config -> spec_float)) :=
  [ (js "VITE_API_TIMEOUT", of_Z 10000, fun c => timeout (api c));
    (js "VITE_DEFAULT_PER_PAGE", of_Z 20, fun c => defaultPerPage (pagination c));
    (js "VITE_MAX_PER_PAGE", of_Z 100, fun c => maxPerPage (pagination c));
    (js "VITE_SMTP_PORT", of_Z 587, fun c => port (smtp (email c)));
    (js "VITE_RATE_LIMIT_REQUESTS", of_Z 100,
     fun c => requests (rateLimit (security c)));
    (js "VITE_RATE_LIMIT_WINDOW", of_Z 900000,
     fun c => window (rateLimit (security c))) ].

Definition boolean_keys : list (jsstring * bool * (Config -> bool)) :=
  [ (js "VITE_ENABLE_REVIEWS", true, fun c => reviews (features c));
    (js "VITE_ENABLE_WISHLIST", true, fun c => wishlist (features c));
    (js "VITE_ENABLE_CHAT", false, fun c => chat (features c));
    (js "VITE_ENABLE_NOTIFICATIONS", true, fun c => notifications (features c)) ].

Definition cors_key : jsstring := js "VITE_CORS_ORIGINS".

(** The pure value of each reader. *)
Definition string_of (m : ImportMeta) (key d : jsstring) : jsstring :=
  or_default (env_value m key) d.

Definition number_of (m : ImportMeta) (key : jsstring) (d : spec_float) : spec_float :=
  let value := string_of m key [] in
  if truthy value then Number value else d.

Definition boolean_of (m : ImportMeta) (key : jsstring) (d : bool) : bool :=
  str_eqb (string_of m key []) (js "true") || d.

(** ** Exhaustive checks on bytes *)

Definition bytes : list N := map N.of_nat (seq 0 256).

(** A 6-bit value survives [enc] then [dec], and is not written [=]. *)
Definition sextet_ok (v : N) : bool :=
  match dec (enc v) with
  | Some v' => (v' =? v) && negb (enc v =? pad)
  | None => false
  end.

Definition check1 (a : N) : bool :=
  sextet_ok (N.shiftr a 2) && sextet_ok (N.land a 63)
  && (N.lor (N.shiftl (N.shiftr a 4) 4) (N.land a 15) =? a)
  && (N.lor (N.shiftl (N.shiftr a 6) 6) (N.land a 63) =? a).

Definition check12 (a b : N) : bool :=
  sextet_ok (sextet2 a b)
  && (byte1 (N.shiftr a 2) (sextet2 a b) =? a)
  && (N.land (sextet2 a b) 15 =? N.shiftr b 4).

Definition check23 (b c : N) : bool :=
  sextet_ok (sextet3 b c)
  && (N.shiftr (sextet3 b c) 2 =? N.land b 15)
  && (N.land (sextet3 b c) 3 =? N.shiftr c 6).

Definition tail1_ok (a : N) : bool :=
  match decode (encode [a]) with
  | Some [x] => x =? a
  | _ => false
  end.

Definition tail2_ok (a b : N) : bool :=
  match decode (encode [a; b]) with
  | Some [x; y] => (x =? a) && (y =? b)
  | _ => false
  end.

(** ** Hosts used as examples *)

(** A host that sets a flag to "false", another to "true", a number to
    "0", one to a word, one to a numeral, and a string to the empty
    string. *)
Definition sample_host : ImportMeta :=
  MetaObject (Some {|
    vars := list_to_map
      [ (js "VITE_ENABLE_REVIEWS", js "false");
        (js "VITE_ENABLE_CHAT", js "true");
        (js "VITE_API_TIMEOUT", js "0");
        (js "VITE_SMTP_PORT", js "abc");
        (js "VITE_MAX_PER_PAGE", js "250");
        (js "VITE_JWT_EXPIRATION", []) ];
    DEV := Some true; PROD := Some false |}).

(** A host whose only variable is [VITE_CORS_ORIGINS = "a,b,,c"]. *)
Definition cors_host : ImportMeta :=
  MetaObject (Some {| vars := {[ cors_key := js "a,b,,c" ]};
                      DEV := Some true; PROD := Some false |}).

(** A host with a user name outside Latin-1: the euro sign, U+20AC. *)
Definition wide_host : ImportMeta :=
  MetaObject (Some {| vars := {[ js "VITE_WP_USERNAME" := [0x20AC];
                                 js "VITE_WP_APP_PASSWORD" := js "p" ]};
                      DEV := Some false; PROD := Some true |}).

(** A host with the credentials "u" and "p" and no token. *)
Definition up_host : ImportMeta :=
  MetaObject (Some {| vars := {[ js "VITE_WP_USERNAME" := js "u";
                                 js "VITE_WP_APP_PASSWORD" := js "p" ]};
                      DEV := Some false; PROD := Some true |}).

(** ** Vocabulary of the further properties *)

(** All the variables that [config] reads. *)
Definition recognized_keys : list jsstring :=
  map (fun '(k, _, _) => k) string_keys
  ++ map (fun '(k, _, _) => k) numeric_keys
  ++ map (fun '(k, _, _) => k) boolean_keys
  ++ [cors_key].

(** What the host gives for a build-mode flag: [false] without
    [import.meta], [undefined] without [import.meta.env], and the flag
    of the environment otherwise. *)
Definition host_flag (m : ImportMeta) (f : ImportMetaEnv -> option bool)
  : option bool :=
  match m with
  | MetaUndefined => Some false
  | MetaObject None => None
  | MetaObject (Some e) => f e
  end.

(** The variable and the default behind each service of [getApiUrl]. *)
Definition service_key (s : ServiceName) : jsstring :=
  match s with
  | Sgeodir => js "VITE_GEODIR_API_URL"
  | Swordpress => js "VITE_WP_API_URL"
  | Sdokan => js "VITE_DOKAN_API_URL"
  end.

Definition service_default (s : ServiceName) : jsstring :=
  match s with
  | Sgeodir => js "https://shoplocal.kinsta.cloud/wp-json/geodir/v2"
  | Swordpress => js "https://shoplocal.kinsta.cloud/wp-json/wp/v2"
  | Sdokan => js "https://shoplocal.kinsta.cloud/wp-json/dokan/v1"
  end.

(** The characters of a decimal numeral, from the values of its digits. *)
Definition numeral (ds : list N) : jsstring := map (fun d => d + 48) ds.

(** A character of padded base64: a letter, a digit, [+], [/] or [=]. *)
Definition b64char (c : N) : bool :=
  ((65 <=? c) && (c <=? 90)) || ((97 <=? c) && (c <=? 122))
  || ((48 <=? c) && (c <=? 57)) || (c =? 43) || (c =? 47) || (c =? pad).

(** [sample_host] with one more variable, which [config] does not read. *)
Definition sample_host_plus : ImportMeta :=
  MetaObject (Some {|
    vars := list_to_map
      [ (js "VITE_UNRELATED", js "x");
        (js "VITE_ENABLE_REVIEWS", js "false");
        (js "VITE_ENABLE_CHAT", js "true");
        (js "VITE_API_TIMEOUT", js "0");
        (js "VITE_SMTP_PORT", js "abc");
        (js "VITE_MAX_PER_PAGE", js "250");
        (js "VITE_JWT_EXPIRATION", []) ];
    DEV := Some true; PROD := Some false |}).

(** A host with a token, credentials, and a numeric variable of blanks. *)
Definition token_host : ImportMeta :=
  MetaObject (Some {|
    vars := list_to_map
      [ (js "VITE_API_AUTH_TOKEN", js "abc123");
        (js "VITE_WP_USERNAME", js "u");
        (js "VITE_WP_APP_PASSWORD", js "p");
        (js "VITE_API_TIMEOUT", js "  ");
        (js "VITE_SMTP_PORT", js "2525");
        (js "VITE_WP_API_URL", js "https://example.org/wp-json/wp/v2") ];
    DEV := None; PROD := None |}).

(** A browser whose storage holds a token. *)
Definition logged_in : Window :=
  WindowObject (Some {[ js "authToken" := js "stored" ]}).

(** * Sanity checks of the model on concrete inputs *)

Example Number_integer : Number (js "587") = of_Z 587.
Proof. reflexivity. Qed.

Example Number_zero : Number (js "0") = S754_zero false.
Proof. reflexivity. Qed.

Example Number_negative_zero : Number (js "-0") = S754_zero true.
Proof. reflexivity. Qed.

Example Number_blank : Number (js "  ") = S754_zero false.
Proof. reflexivity. Qed.

Example Number_trimmed : Number (js " 42 ") = of_Z 42.
Proof. reflexivity. Qed.

Example Number_exponent : Number (js "1e3") = of_Z 1000.
Proof. reflexivity. Qed.

Example Number_hex : Number (js "0x10") = of_Z 16.
Proof. reflexivity. Qed.

(** 0.1 is 0x1.999999999999ap-4. *)
Example Number_tenth :
  Number (js "0.1") = S754_finite false 0x1999999999999a (-56).
Proof. reflexivity. Qed.

(** 2^53 + 1 is a tie, rounded to the even 2^53. *)
Example Number_tie : Number (js "9007199254740993") = of_Z 9007199254740992.
Proof. reflexivity. Qed.

Example Number_max :
  Number (js "1.7976931348623157e308")
  = S754_finite false 0x1fffffffffffff 971.
Proof. reflexivity. Qed.

Example Number_overflow : Number (js "1e309") = S754_infinity false.
Proof. reflexivity. Qed.

Example Number_min : Number (js "5e-324") = S754_finite false 1 (-1074).
Proof. reflexivity. Qed.

Example Number_underflow : Number (js "2e-324") = S754_zero false.
Proof. reflexivity. Qed.

Example Number_infinity : Number (js "-Infinity") = S754_infinity true.
Proof. reflexivity. Qed.

Example Number_unit : Number (js "12px") = S754_nan.
Proof. reflexivity. Qed.

Example Number_word : Number (js "abc") = S754_nan.
Proof. reflexivity. Qed.

Example Number_separator : Number (js "1_000") = S754_nan.
Proof. reflexivity. Qed.

Example btoa_Man : btoa (js "Man") = Normal (js "TWFu").
Proof. reflexivity. Qed.

Example btoa_padding_1 : btoa (js "Ma") = Normal (js "TWE=").
Proof. reflexivity. Qed.

Example btoa_padding_2 : btoa (js "M") = Normal (js "TQ==").
Proof. reflexivity. Qed.

Example btoa_high_bytes : btoa [255; 254; 253] = Normal (js "//79").
Proof. reflexivity. Qed.

Example btoa_euro : btoa [0x20AC] = Throw InvalidCharacterError.
Proof. reflexivity. Qed.

Example split_example :
  split comma (js "a,b,,c") = [js "a"; js "b"; []; js "c"].
Proof. reflexivity. Qed.

Example split_empty : split comma [] = [[]].
Proof. reflexivity. Qed.

Example split_trailing : split comma (js "a,") = [js "a"; []].
Proof. reflexivity. Qed.

(** Outside Vite, and outside a browser: defaults, and no header. *)
Example no_host :
  (c ← config MetaUndefined; getAuthHeader c WindowUndefined) = Normal [].
Proof. reflexivity. Qed.

(** In a browser that denies storage, with nothing configured. *)
Example denied_storage :
  (c ← config MetaUndefined; getAuthHeader c WindowDenied)
  = Throw SecurityError.
Proof. reflexivity. Qed.

Example no_host_features :
  (c ← config MetaUndefined;
   mret (isFeatureEnabled c Fchat, isFeatureEnabled c Freviews,
         getApiUrl c Swordpress))
  = Normal (false, true, js "https://shoplocal.kinsta.cloud/wp-json/wp/v2").
Proof. reflexivity. Qed.

(** * Properties *)

(** ** The readers, equationally *)

Lemma truthy_nonempty (s : jsstring) : truthy s = true <-> s <> [].
Proof. destruct s; simpl; split; congruence. Qed.

Lemma truthy_false (s : jsstring) : truthy s = false <-> s = [].
Proof. destruct s; simpl; split; congruence. Qed.

Lemma str_eqb_eq (a b : jsstring) : str_eqb a b = true <-> a = b.
Proof.
  revert b. induction a as [|x a IH]; intros [|y b]; simpl; split;
    try congruence.
  - intros [Hxy Hab]%andb_true_iff. apply N.eqb_eq in Hxy.
    apply IH in Hab. congruence.
  - intros [= -> ->]. rewrite N.eqb_refl. simpl. now apply IH.
Qed.

Lemma str_eqb_neq (a b : jsstring) : a <> b -> str_eqb a b = false.
Proof.
  intros H. destruct (str_eqb a b) eqn:E; [|reflexivity].
  apply str_eqb_eq in E. contradiction.
Qed.

Lemma or_default_unset (v : option jsstring) (d : jsstring) :
  v = None \/ v = Some [] -> or_default v d = d.
Proof. intros [-> | ->]; reflexivity. Qed.

Lemma or_default_set (s d : jsstring) :
  s <> [] -> or_default (Some s) d = s.
Proof. destruct s; [congruence | reflexivity]. Qed.

Lemma getEnv_eq (m : ImportMeta) (key d : jsstring) :
  getEnv m key d = Normal (or_default (env_value m key) d).
Proof. destruct m as [|[e|]]; reflexivity. Qed.

Lemma getEnvBoolean_eq (m : ImportMeta) (key : jsstring) (d : bool) :
  getEnvBoolean m key d
  = Normal (str_eqb (or_default (env_value m key) []) (js "true") || d).
Proof. unfold getEnvBoolean. rewrite getEnv_eq. reflexivity. Qed.

Lemma getEnvNumber_eq (m : ImportMeta) (key : jsstring) (d : spec_float) :
  getEnvNumber m key d
  = Normal (let value := or_default (env_value m key) [] in
            if truthy value then Number value else d).
Proof. unfold getEnvNumber. rewrite getEnv_eq. reflexivity. Qed.

Lemma build_flag_returns (m : ImportMeta) (f : ImportMetaEnv -> option bool) :
  returns (build_flag m f).
Proof. destruct m as [|[e|]]; eexists; reflexivity. Qed.

(** [config] always completes, and every field is the value of the
    reader on its key and default. *)
Lemma config_fields (m : ImportMeta) :
  exists c, config m = Normal c
    /\ Forall (fun '(k, d, f) => f c = string_of m k d) string_keys
    /\ Forall (fun '(k, d, f) => f c = number_of m k d) numeric_keys
    /\ Forall (fun '(k, d, f) => f c = boolean_of m k d) boolean_keys
    /\ corsOrigins (security c)
       = filter_Boolean (split comma (string_of m cors_key [])).
Proof.
  destruct (build_flag_returns m DEV) as [dev Hdev].
  destruct (build_flag_returns m PROD) as [prod Hprod].
  eexists. split.
  - unfold config.
    rewrite !getEnv_eq, !getEnvNumber_eq, !getEnvBoolean_eq, Hdev, Hprod.
    reflexivity.
  - repeat split; repeat constructor.
Qed.

Lemma string_of_unset (m : ImportMeta) (key d : jsstring) :
  unset m key -> string_of m key d = d.
Proof. apply or_default_unset. Qed.

Lemma string_of_set (m : ImportMeta) (key d s : jsstring) :
  env_value m key = Some s -> s <> [] -> string_of m key d = s.
Proof. unfold string_of. intros ->. apply or_default_set. Qed.

Lemma number_of_unset (m : ImportMeta) (key : jsstring) (d : spec_float) :
  unset m key -> number_of m key d = d.
Proof. intros H. unfold number_of. now rewrite string_of_unset. Qed.

Lemma number_of_set (m : ImportMeta) (key s : jsstring) (d : spec_float) :
  env_value m key = Some s -> s <> [] -> number_of m key d = Number s.
Proof.
  intros H Hs. unfold number_of. rewrite (string_of_set _ _ _ _ H Hs).
  apply truthy_nonempty in Hs. simpl. now rewrite Hs.
Qed.

Lemma boolean_of_unset (m : ImportMeta) (key : jsstring) (d : bool) :
  unset m key -> boolean_of m key d = d.
Proof. intros H. unfold boolean_of. now rewrite string_of_unset. Qed.

Lemma boolean_of_true (m : ImportMeta) (key : jsstring) (d : bool) :
  env_value m key = Some (js "true") -> boolean_of m key d = true.
Proof.
  intros H. unfold boolean_of. now rewrite (string_of_set _ _ _ _ H).
Qed.

Lemma boolean_of_other (m : ImportMeta) (key s : jsstring) (d : bool) :
  env_value m key = Some s -> s <> js "true" -> boolean_of m key d = d.
Proof.
  intros H Hs. unfold boolean_of, string_of. rewrite H.
  destruct s as [|x s]; [reflexivity|].
  simpl or_default. now rewrite str_eqb_neq.
Qed.

(** No source of variables leaves every key unset. *)
Lemma unset_no_source (m : ImportMeta) (key : jsstring) :
  m = MetaUndefined \/ m = MetaObject None -> unset m key.
Proof. intros [-> | ->]; now left. Qed.

Lemma env_value_None (m : ImportMeta) (key : jsstring) :
  env_value m key = None
  <-> m = MetaUndefined \/ m = MetaObject None
      \/ exists e, m = MetaObject (Some e) /\ vars e !! key = None.
Proof.
  split.
  - destruct m as [|[e|]]; simpl; eauto.
  - intros [-> | [-> | (e & -> & H)]]; simpl; auto.
Qed.

(** * The readers *)

(** X17: whatever the key, the default and the state of the
    environment source (its absence included), [getEnv],
    [getEnvBoolean] and [getEnvNumber] return a value and throw
    nothing, and so does the construction of [config]; for a recognized
    key, a lookup that finds nothing (no [import.meta], no [env], no
    such variable) yields the default. *)
Theorem readers_never_throw
  (m : ImportMeta) (key d : jsstring) (db : bool) (dn : spec_float) :
  returns (getEnv m key d)
  /\ returns (getEnvBoolean m key db)
  /\ returns (getEnvNumber m key dn)
  /\ returns (config m)
  /\ (key ∈ recognized_keys ->
      env_value m key = None ->
      getEnv m key d = Normal d
      /\ getEnvBoolean m key db = Normal db
      /\ getEnvNumber m key dn = Normal dn).
Proof.
  split; [|split; [|split; [|split]]].
  - rewrite getEnv_eq. now eexists.
  - rewrite getEnvBoolean_eq. now eexists.
  - rewrite getEnvNumber_eq. now eexists.
  - destruct (config_fields m) as (c & Hc & _). now exists c.
  - intros _ Hnone.
    rewrite getEnv_eq, getEnvBoolean_eq, getEnvNumber_eq, Hnone.
    repeat split.
Qed.

Lemma readers_never_throw_witness :
  env_value MetaUndefined (js "VITE_APP_ENV") = None
  /\ getEnv MetaUndefined (js "VITE_APP_ENV") (js "development")
     = Normal (js "development")
  /\ getEnvBoolean (MetaObject None) (js "VITE_ENABLE_CHAT") false = Normal false
  /\ getEnvNumber sample_host (js "VITE_DEFAULT_PER_PAGE") (of_Z 20)
     = Normal (of_Z 20).
Proof.
  split; [reflexivity|].
  split.
  { apply (readers_never_throw MetaUndefined (js "VITE_APP_ENV")
             (js "development") false (of_Z 0));
      [apply (bool_decide_unpack _); vm_compute; exact I | reflexivity]. }
  split.
  { apply (readers_never_throw (MetaObject None) (js "VITE_ENABLE_CHAT")
             [] false (of_Z 0));
      [apply (bool_decide_unpack _); vm_compute; exact I | reflexivity]. }
  apply (readers_never_throw sample_host (js "VITE_DEFAULT_PER_PAGE")
           [] false (of_Z 20));
    [apply (bool_decide_unpack _); vm_compute; exact I | reflexivity].
Defined.

(** C2: for every boolean key and every default, the variable set to
    exactly "true" gives [true], and set to any other non-empty string
    ("false" included) gives the default, never its negation; so the
    flags of [config] whose default is [true] are not turned off by
    "false". *)
Theorem boolean_coercion (m : ImportMeta) :
  (forall key d,
      env_value m key = Some (js "true") -> getEnvBoolean m key d = Normal true)
  /\ (forall key d s,
      env_value m key = Some s -> s <> [] -> s <> js "true" ->
      getEnvBoolean m key d = Normal d)
  /\ exists c, config m = Normal c
      /\ Forall (fun '(k, d, f) =>
                  (env_value m k = Some (js "true") -> f c = true)
                  /\ (forall s, env_value m k = Some s -> s <> [] ->
                                s <> js "true" -> f c = d)
                  /\ (d = true -> env_value m k = Some (js "false") ->
                      f c = true))
           boolean_keys.
Proof.
  split; [|split].
  - intros key d H. rewrite getEnvBoolean_eq.
    f_equal. now apply boolean_of_true.
  - intros key d s H _ Hs. rewrite getEnvBoolean_eq.
    f_equal. now apply (boolean_of_other m key s).
  - destruct (config_fields m) as (c & Hc & _ & _ & Hb & _).
    exists c. split; [exact Hc|].
    eapply Forall_impl; [exact Hb|].
    intros [[k d] f] ->. repeat split.
    + apply boolean_of_true.
    + intros s H _ Hs. now apply (boolean_of_other m k s).
    + intros -> H. now apply (boolean_of_other m k (js "false")).
Qed.

Lemma boolean_coercion_witness :
  exists c, config sample_host = Normal c
    /\ chat (features c) = true
    /\ reviews (features c) = true
    /\ getEnvBoolean sample_host (js "VITE_ENABLE_REVIEWS") false = Normal false.
Proof.
  destruct (boolean_coercion sample_host) as (_ & Hother & c & Hc & HF).
  exists c. split; [exact Hc|].
  split.
  { exact (proj1 (Forall_lookup_1 _ _ 2%nat _ HF eq_refl) eq_refl). }
  split.
  { exact (proj2 (proj2 (Forall_lookup_1 _ _ 0%nat _ HF eq_refl))
             eq_refl eq_refl). }
  apply (Hother _ false (js "false")); [reflexivity | discriminate..].
Defined.

(** C3: for every numeric key, the variable set to a non-empty string
    gives [Number] of that string, unguarded (NaN for a string that is
    not a numeric literal), and the variable empty or absent gives the
    default. *)
Theorem numeric_coercion (m : ImportMeta) :
  (forall key d s,
      env_value m key = Some s -> s <> [] ->
      getEnvNumber m key d = Normal (Number s))
  /\ (forall key d, unset m key -> getEnvNumber m key d = Normal d)
  /\ (forall key d,
      env_value m key = Some (js "abc") ->
      getEnvNumber m key d = Normal S754_nan)
  /\ exists c, config m = Normal c
      /\ Forall (fun '(k, d, f) =>
                  (forall s, env_value m k = Some s -> s <> [] ->
                             f c = Number s)
                  /\ (unset m k -> f c = d))
           numeric_keys.
Proof.
  split; [|split; [|split]].
  - intros key d s H Hs. rewrite getEnvNumber_eq.
    f_equal. now apply number_of_set.
  - intros key d H. rewrite getEnvNumber_eq.
    f_equal. now apply number_of_unset.
  - intros key d H. rewrite getEnvNumber_eq.
    f_equal. now apply (number_of_set m key (js "abc")).
  - destruct (config_fields m) as (c & Hc & _ & Hn & _).
    exists c. split; [exact Hc|].
    eapply Forall_impl; [exact Hn|].
    intros [[k d] f] ->. split.
    + intros s. apply number_of_set.
    + apply number_of_unset.
Qed.

Lemma numeric_coercion_witness :
  exists c, config sample_host = Normal c
    /\ maxPerPage (pagination c) = of_Z 250
    /\ port (smtp (email c)) = S754_nan
    /\ defaultPerPage (pagination c) = of_Z 20.
Proof.
  destruct (numeric_coercion sample_host) as (_ & _ & _ & c & Hc & HF).
  exists c. split; [exact Hc|].
  split.
  { change (of_Z 250) with (Number (js "250")).
    apply (proj1 (Forall_lookup_1 _ _ 2%nat _ HF eq_refl) (js "250"));
      [reflexivity | discriminate]. }
  split.
  { change S754_nan with (Number (js "abc")).
    apply (proj1 (Forall_lookup_1 _ _ 3%nat _ HF eq_refl) (js "abc"));
      [reflexivity | discriminate]. }
  apply (proj2 (Forall_lookup_1 _ _ 1%nat _ HF eq_refl)). now left.
Defined.

(** C10: the presence test of [getEnvNumber] is on the string: the
    variable set to "0" gives the number 0 and not the default, for
    every numeric key of [config], none of whose defaults is zero. *)
Theorem zero_string_is_zero (m : ImportMeta) :
  (forall key d,
      env_value m key = Some (js "0") ->
      getEnvNumber m key d = Normal (S754_zero false))
  /\ exists c, config m = Normal c
      /\ Forall (fun '(k, d, f) =>
                  env_value m k = Some (js "0") ->
                  f c = S754_zero false /\ f c <> d)
           numeric_keys.
Proof.
  split.
  - intros key d H. rewrite getEnvNumber_eq.
    f_equal. now apply (number_of_set m key (js "0")).
  - destruct (config_fields m) as (c & Hc & _ & Hn & _).
    exists c. split; [exact Hc|].
    assert (Hd : Forall (fun '(k, d, f) => S754_zero false <> d) numeric_keys)
      by (repeat constructor; discriminate).
    pose proof (conj Hn Hd) as H%Forall_and.
    eapply Forall_impl; [exact H|].
    intros [[k d] f] [-> Hz] Hk.
    now rewrite (number_of_set m k (js "0")).
Qed.

Lemma zero_string_is_zero_witness :
  exists c, config sample_host = Normal c
    /\ timeout (api c) = S754_zero false
    /\ timeout (api c) <> of_Z 10000.
Proof.
  destruct (zero_string_is_zero sample_host) as (_ & c & Hc & HF).
  exists c. split; [exact Hc|].
  exact (Forall_lookup_1 _ _ 0%nat _ HF eq_refl eq_refl).
Defined.

(** * The configuration object *)

(** C4: for every recognized key, the variable absent or empty (which
    is how every key reads when the source itself is unavailable) leaves
    the field of [config] equal to the default literal of the call:
    10000 for [api.timeout], 20 for [pagination.defaultPerPage], 587 for
    [email.smtp.port], "7d" for [auth.jwtExpiration], [false] for
    [features.chat], [true] for [features.reviews], the WordPress URL
    for [api.wordpress], the empty list for [security.corsOrigins]. *)
Theorem defaults_when_unset (m : ImportMeta) :
  exists c, config m = Normal c
    /\ Forall (fun '(k, d, f) => unset m k -> f c = d) string_keys
    /\ Forall (fun '(k, d, f) => unset m k -> f c = d) numeric_keys
    /\ Forall (fun '(k, d, f) => unset m k -> f c = d) boolean_keys
    /\ (unset m cors_key -> corsOrigins (security c) = [])
    /\ (unset m (js "VITE_API_TIMEOUT") -> timeout (api c) = of_Z 10000)
    /\ (unset m (js "VITE_DEFAULT_PER_PAGE") ->
        defaultPerPage (pagination c) = of_Z 20)
    /\ (unset m (js "VITE_SMTP_PORT") -> port (smtp (email c)) = of_Z 587)
    /\ (unset m (js "VITE_JWT_EXPIRATION") ->
        jwtExpiration (auth c) = js "7d")
    /\ (unset m (js "VITE_ENABLE_CHAT") -> chat (features c) = false)
    /\ (unset m (js "VITE_ENABLE_REVIEWS") -> reviews (features c) = true)
    /\ (unset m (js "VITE_WP_API_URL") ->
        wordpress (api c) = js "https://shoplocal.kinsta.cloud/wp-json/wp/v2")
    /\ (m = MetaUndefined \/ m = MetaObject None ->
        forall k, unset m k).
Proof.
  destruct (config_fields m) as (c & Hc & Hs & Hn & Hb & Hcors).
  assert (Ds : Forall (fun '(k, d, f) => unset m k -> f c = d) string_keys).
  { eapply Forall_impl; [exact Hs|].
    intros [[k d] f] ->. apply string_of_unset. }
  assert (Dn : Forall (fun '(k, d, f) => unset m k -> f c = d) numeric_keys).
  { eapply Forall_impl; [exact Hn|].
    intros [[k d] f] ->. apply number_of_unset. }
  assert (Db : Forall (fun '(k, d, f) => unset m k -> f c = d) boolean_keys).
  { eapply Forall_impl; [exact Hb|].
    intros [[k d] f] ->. apply boolean_of_unset. }
  exists c. split; [exact Hc|].
  split; [exact Ds|]. split; [exact Dn|]. split; [exact Db|].
  split; [intros H; rewrite Hcors, string_of_unset by exact H; reflexivity|].
  repeat split.
  - exact (Forall_lookup_1 _ _ 0%nat _ Dn eq_refl).
  - exact (Forall_lookup_1 _ _ 1%nat _ Dn eq_refl).
  - exact (Forall_lookup_1 _ _ 3%nat _ Dn eq_refl).
  - exact (Forall_lookup_1 _ _ 7%nat _ Ds eq_refl).
  - exact (Forall_lookup_1 _ _ 2%nat _ Db eq_refl).
  - exact (Forall_lookup_1 _ _ 0%nat _ Db eq_refl).
  - exact (Forall_lookup_1 _ _ 1%nat _ Ds eq_refl).
  - intros H k. now apply unset_no_source.
Qed.

Lemma defaults_when_unset_witness :
  exists c, config sample_host = Normal c
    /\ jwtExpiration (auth c) = js "7d"
    /\ wordpress (api c) = js "https://shoplocal.kinsta.cloud/wp-json/wp/v2"
    /\ defaultPerPage (pagination c) = of_Z 20
    /\ corsOrigins (security c) = [].
Proof.
  destruct (defaults_when_unset sample_host)
    as (c & Hc & _ & _ & _ & Hcors & _ & Hpp & _ & Hjwt & _ & _ & Hwp & _).
  exists c. split; [exact Hc|].
  split; [apply Hjwt; now right|].
  split; [apply Hwp; now left|].
  split; [apply Hpp; now left | apply Hcors; now left].
Defined.

Lemma split_on_nonempty (sep : N) (cur s : jsstring) : split_on sep cur s <> [].
Proof.
  revert cur. induction s as [|c r IH]; intros cur; simpl; [discriminate|].
  destruct (c =? sep); [discriminate | apply IH].
Qed.

Lemma join_cons (sep : N) (x : jsstring) (r : list jsstring) :
  r <> [] -> join sep (x :: r) = x ++ sep :: join sep r.
Proof. destruct r; [congruence | reflexivity]. Qed.

Lemma join_split_on (sep : N) (cur s : jsstring) :
  join sep (split_on sep cur s) = rev cur ++ s.
Proof.
  revert cur. induction s as [|c r IH]; intros cur; simpl.
  - now rewrite app_nil_r.
  - destruct (N.eqb_spec c sep) as [-> | Hne].
    + rewrite join_cons by apply split_on_nonempty.
      now rewrite IH.
    + rewrite IH. simpl. now rewrite <- app_assoc.
Qed.

Lemma split_on_no_sep (sep : N) (cur s : jsstring) :
  ~ In sep cur ->
  Forall (fun seg => ~ In sep seg) (split_on sep cur s).
Proof.
  revert cur. induction s as [|c r IH]; intros cur Hcur; simpl.
  - constructor; [|constructor]. now rewrite <- in_rev.
  - destruct (N.eqb_spec c sep) as [-> | Hne].
    + constructor; [now rewrite <- in_rev | apply IH; intros []].
    + apply IH. intros [-> | H]; [congruence | contradiction].
Qed.

(** [split] cuts at the separators and nowhere else. *)
Lemma split_spec (sep : N) (s : jsstring) :
  join sep (split sep s) = s
  /\ Forall (fun seg => ~ In sep seg) (split sep s).
Proof.
  split; [apply join_split_on | apply split_on_no_sep; intros []].
Qed.

(** C5: [security.corsOrigins] is the sequence of the non-empty segments
    of the [VITE_CORS_ORIGINS] string cut at its commas, in their order;
    for "a,b,,c" it is ["a"; "b"; "c"]. *)
Theorem corsOrigins_split (m : ImportMeta) (s : jsstring) :
  env_value m cors_key = Some s ->
  exists c segs, config m = Normal c
    /\ join comma segs = s
    /\ Forall (fun seg => ~ In comma seg) segs
    /\ corsOrigins (security c) = List.filter (fun seg => negb (str_eqb seg [])) segs
    /\ (s = js "a,b,,c" -> corsOrigins (security c) = [js "a"; js "b"; js "c"]).
Proof.
  intros Hs.
  destruct (config_fields m) as (c & Hc & _ & _ & _ & Hcors).
  assert (Hv : string_of m cors_key [] = s).
  { unfold string_of. rewrite Hs. destruct s; reflexivity. }
  rewrite Hv in Hcors.
  exists c, (split comma s). split; [exact Hc|].
  destruct (split_spec comma s) as [Hj Hn].
  split; [exact Hj|]. split; [exact Hn|]. split.
  - rewrite Hcors. unfold filter_Boolean. apply filter_ext.
    intros [|x seg]; reflexivity.
  - intros ->. rewrite Hcors. reflexivity.
Qed.

Lemma corsOrigins_split_witness :
  env_value cors_host cors_key = Some (js "a,b,,c")
  /\ exists c segs, config cors_host = Normal c
      /\ join comma segs = js "a,b,,c"
      /\ Forall (fun seg => ~ In comma seg) segs
      /\ corsOrigins (security c)
         = List.filter (fun seg => negb (str_eqb seg [])) segs
      /\ (js "a,b,,c" = js "a,b,,c" ->
          corsOrigins (security c) = [js "a"; js "b"; js "c"]).
Proof.
  split; [reflexivity|].
  apply (corsOrigins_split cors_host (js "a,b,,c")). reflexivity.
Defined.

(** C9: with [VITE_CORS_ORIGINS] absent or empty, [security.corsOrigins]
    is the empty list and not the list of one empty string: the empty
    string splits into [""], whose only segment is then discarded. *)
Theorem corsOrigins_empty_when_unset (m : ImportMeta) :
  unset m cors_key ->
  exists c, config m = Normal c
    /\ corsOrigins (security c) = []
    /\ split comma [] = [[]]
    /\ filter_Boolean [[]] = [].
Proof.
  intros H.
  destruct (config_fields m) as (c & Hc & _ & _ & _ & Hcors).
  exists c. split; [exact Hc|].
  rewrite Hcors, string_of_unset by exact H.
  repeat split.
Qed.

Lemma corsOrigins_empty_when_unset_witness :
  unset MetaUndefined cors_key
  /\ exists c, config MetaUndefined = Normal c
      /\ corsOrigins (security c) = []
      /\ split comma [] = [[]]
      /\ filter_Boolean [[]] = [].
Proof.
  split; [now left|].
  apply (corsOrigins_empty_when_unset MetaUndefined). now left.
Defined.

(** * The authorization header *)

(** ** The base64 encoder *)

Lemma byte_in (a : N) : a <= 255 -> In a bytes.
Proof.
  intros H. unfold bytes. rewrite <- (N2Nat.id a).
  apply in_map, in_seq. lia.
Qed.

Lemma all_bytes (P : N -> bool) :
  forallb P bytes = true -> forall a, a <= 255 -> P a = true.
Proof.
  intros H a Ha. rewrite forallb_forall in H. apply H, byte_in, Ha.
Qed.

Lemma all_bytes2 (P : N -> N -> bool) :
  forallb (fun a => forallb (P a) bytes) bytes = true ->
  forall a b, a <= 255 -> b <= 255 -> P a b = true.
Proof.
  intros H a b Ha Hb.
  apply (all_bytes (P a)); [|exact Hb].
  apply (all_bytes (fun a => forallb (P a) bytes)); assumption.
Qed.

Lemma check1_all (a : N) : a <= 255 -> check1 a = true.
Proof. apply all_bytes. vm_compute. reflexivity. Qed.

Lemma check12_all (a b : N) : a <= 255 -> b <= 255 -> check12 a b = true.
Proof. apply all_bytes2. vm_compute. reflexivity. Qed.

Lemma check23_all (b c : N) : b <= 255 -> c <= 255 -> check23 b c = true.
Proof. apply all_bytes2. vm_compute. reflexivity. Qed.

Lemma sextet_ok_spec (v : N) :
  sextet_ok v = true -> dec (enc v) = Some v /\ (enc v =? pad) = false.
Proof.
  unfold sextet_ok. destruct (dec (enc v)) as [v'|]; [|discriminate].
  intros [H1 H2]%andb_true_iff. apply N.eqb_eq in H1. subst v'.
  split; [reflexivity | now apply negb_true_iff].
Qed.

Lemma decode_group (c1 c2 c3 c4 : N) (r : jsstring) (v1 v2 v3 v4 : N) (rest : list N) :
  dec c1 = Some v1 -> dec c2 = Some v2 -> dec c3 = Some v3 -> dec c4 = Some v4 ->
  (c4 =? pad) = false -> decode r = Some rest ->
  decode (c1 :: c2 :: c3 :: c4 :: r)
  = Some (byte1 v1 v2 :: byte2 v2 v3 :: byte3 v3 v4 :: rest).
Proof.
  intros H1 H2 H3 H4 Hp Hr. cbn [decode]. rewrite H1, H2, H3, H4, Hp, Hr.
  reflexivity.
Qed.

Lemma list_ind3 {A} (P : list A -> Prop) :
  P [] -> (forall a, P [a]) -> (forall a b, P [a; b]) ->
  (forall a b c r, P r -> P (a :: b :: c :: r)) ->
  forall l, P l.
Proof.
  intros H0 H1 H2 H3.
  fix IH 1.
  intros [|a [|b [|c r]]]; [exact H0 | apply H1 | apply H2 | apply H3, IH].
Qed.

Lemma latin1_cons (a : N) (s : jsstring) :
  latin1 (a :: s) = true <-> a <= 255 /\ latin1 s = true.
Proof.
  unfold latin1. simpl. rewrite andb_true_iff, N.leb_le. reflexivity.
Qed.

Lemma tail1_ok_all (a : N) : a <= 255 -> tail1_ok a = true.
Proof. apply all_bytes. vm_compute. reflexivity. Qed.

Lemma tail2_ok_all (a b : N) : a <= 255 -> b <= 255 -> tail2_ok a b = true.
Proof. apply all_bytes2. vm_compute. reflexivity. Qed.

Lemma tail1_all (a : N) : a <= 255 -> decode (encode [a]) = Some [a].
Proof.
  intros Ha. pose proof (tail1_ok_all a Ha) as H.
  unfold tail1_ok in H.
  destruct (decode (encode [a])) as [[|x [|? ?]]|]; try discriminate.
  apply N.eqb_eq in H. now subst.
Qed.

Lemma tail2_all (a b : N) :
  a <= 255 -> b <= 255 -> decode (encode [a; b]) = Some [a; b].
Proof.
  intros Ha Hb. pose proof (tail2_ok_all a b Ha Hb) as H.
  unfold tail2_ok in H.
  destruct (decode (encode [a; b])) as [[|x [|y [|? ?]]]|]; try discriminate.
  apply andb_true_iff in H as [H1 H2].
  apply N.eqb_eq in H1, H2. now subst.
Qed.

Lemma group_bytes (a b c : N) :
  a <= 255 -> b <= 255 -> c <= 255 ->
  byte1 (N.shiftr a 2) (sextet2 a b) = a
  /\ byte2 (sextet2 a b) (sextet3 b c) = b
  /\ byte3 (sextet3 b c) (N.land c 63) = c.
Proof.
  intros Ha Hb Hc.
  pose proof (check12_all a b Ha Hb) as H12.
  pose proof (check23_all b c Hb Hc) as H23.
  pose proof (check1_all b Hb) as H1b.
  pose proof (check1_all c Hc) as H1c.
  unfold check12, check23, check1 in *.
  repeat (match goal with H : _ && _ = true |- _ => apply andb_true_iff in H as [? ?] end).
  repeat (match goal with H : (_ =? _) = true |- _ => apply N.eqb_eq in H end).
  unfold byte2, byte3. repeat split; congruence.
Qed.

(** [atob(btoa(s)) = s]: [encode] loses nothing. *)
Lemma decode_encode (bs : list N) :
  latin1 bs = true -> decode (encode bs) = Some bs.
Proof.
  induction bs as [|a|a b|a b c r IH] using list_ind3.
  - reflexivity.
  - intros [Ha _]%latin1_cons. now apply tail1_all.
  - intros [Ha [Hb _]%latin1_cons]%latin1_cons. now apply tail2_all.
  - intros [Ha [Hb [Hc Hr]%latin1_cons]%latin1_cons]%latin1_cons.
    pose proof (check1_all a Ha) as H1a.
    pose proof (check1_all c Hc) as H1c.
    pose proof (check12_all a b Ha Hb) as H12.
    pose proof (check23_all b c Hb Hc) as H23.
    unfold check1, check12, check23 in H1a, H1c, H12, H23.
    repeat (match goal with H : _ && _ = true |- _ => apply andb_true_iff in H as [? ?] end).
    repeat (match goal with H : sextet_ok _ = true |- _ => apply sextet_ok_spec in H as [? ?] end).
    destruct (group_bytes a b c Ha Hb Hc) as (B1 & B2 & B3).
    change (encode (a :: b :: c :: r))
      with (enc (N.shiftr a 2) :: enc (sextet2 a b) :: enc (sextet3 b c)
            :: enc (N.land c 63) :: encode r).
    erewrite decode_group by (eauto using IH).
    now rewrite B1, B2, B3.
Qed.

(** ** [getAuthHeader] *)

Lemma startsWith_app (p s : jsstring) : startsWith p (p ++ s) = true.
Proof.
  induction p as [|x p IH]; simpl; [reflexivity|].
  now rewrite N.eqb_refl.
Qed.

Lemma startsWith_Basic (t : jsstring) : startsWith (js "Basic ") (Basic t) = true.
Proof. apply startsWith_app. Qed.

(** The branch of the browser storage, on its own. *)
Lemma getAuthHeader_storage (c : Config) (w : Window) :
  token (auth c) = [] ->
  username (auth c) = [] \/ appPassword (auth c) = [] ->
  getAuthHeader c w = r ← storage_read w; mret (header_of_stored r).
Proof.
  intros Ht Hup. unfold getAuthHeader. rewrite Ht. simpl truthy.
  assert (truthy (username (auth c)) && truthy (appPassword (auth c)) = false)
    as ->.
  { destruct Hup as [-> | ->]; simpl; [reflexivity | apply andb_false_r]. }
  destruct w as [| |[store|]]; simpl; try reflexivity.
  destruct (store !! js "authToken") as [[|x st]|]; reflexivity.
Qed.

(** The order in which [getAuthHeader] tries its sources. *)
Lemma getAuthHeader_priority (c : Config) (w : Window) :
  (token (auth c) <> [] ->
   getAuthHeader c w = Normal (Basic (token (auth c))))
  /\ (token (auth c) = [] ->
      username (auth c) <> [] -> appPassword (auth c) <> [] ->
      getAuthHeader c w
      = t ← btoa (username (auth c) ++ js ":" ++ appPassword (auth c));
        mret (Basic t))
  /\ (token (auth c) = [] ->
      username (auth c) = [] \/ appPassword (auth c) = [] ->
      forall st, storage_read w = Normal (Some st) -> st <> [] ->
      getAuthHeader c w = Normal (Basic st))
  /\ (token (auth c) = [] ->
      username (auth c) = [] \/ appPassword (auth c) = [] ->
      storage_read w = Normal None \/ storage_read w = Normal (Some []) ->
      getAuthHeader c w = Normal []).
Proof.
  repeat split.
  - intros Ht%truthy_nonempty. unfold getAuthHeader. now rewrite Ht.
  - intros Ht Hu%truthy_nonempty Hp%truthy_nonempty.
    unfold getAuthHeader. now rewrite Ht, Hu, Hp.
  - intros Ht Hup st Hst Hne%truthy_nonempty.
    rewrite getAuthHeader_storage, Hst by assumption. simpl.
    now rewrite Hne.
  - intros Ht Hup Hst. rewrite getAuthHeader_storage by assumption.
    destruct Hst as [-> | ->]; reflexivity.
Qed.

(** C1: [getAuthHeader] throws on credentials outside Latin-1.  With no
    token, the user name "\u20AC" and the password "p", both non-empty,
    [btoa] raises [InvalidCharacterError] and no header is returned,
    whatever the browser storage holds. *)
Theorem getAuthHeader_wide_credentials_throw :
  exists c, config wide_host = Normal c
    /\ token (auth c) = []
    /\ username (auth c) = [0x20AC]
    /\ appPassword (auth c) = js "p"
    /\ forall w, getAuthHeader c w = Throw InvalidCharacterError.
Proof.
  eexists. split; [reflexivity|].
  repeat split.
Qed.

(** C6: with no token, the user name "u" and the password "p",
    [getAuthHeader] returns "Basic " followed by the base64 encoding of
    "u:p", which is "dTpw". *)
Theorem getAuthHeader_u_p (c : Config) (w : Window) :
  token (auth c) = [] ->
  username (auth c) = js "u" ->
  appPassword (auth c) = js "p" ->
  getAuthHeader c w = Normal (js "Basic " ++ encode (js "u:p"))
  /\ encode (js "u:p") = js "dTpw".
Proof.
  intros Ht Hu Hp. split; [|reflexivity].
  unfold getAuthHeader. rewrite Ht, Hu, Hp. reflexivity.
Qed.

Lemma getAuthHeader_u_p_witness :
  exists c, config up_host = Normal c
    /\ (token (auth c) = []
        /\ username (auth c) = js "u"
        /\ appPassword (auth c) = js "p")
    /\ getAuthHeader c WindowUndefined
       = Normal (js "Basic " ++ encode (js "u:p"))
    /\ encode (js "u:p") = js "dTpw".
Proof.
  eexists. split; [reflexivity|].
  split; [repeat split|].
  apply getAuthHeader_u_p; reflexivity.
Defined.

(** C8: whatever the configuration and the browser storage, a value
    returned by [getAuthHeader] is the empty string or starts with
    "Basic "; the only other outcomes are the exception of [btoa], on
    credentials outside Latin-1, and that of a browser that denies
    storage, when the storage is consulted. *)
Theorem getAuthHeader_shape (c : Config) (w : Window) :
  match getAuthHeader c w with
  | Normal v => v = [] \/ startsWith (js "Basic ") v = true
  | Throw e =>
      (e = InvalidCharacterError
       /\ token (auth c) = []
       /\ username (auth c) <> [] /\ appPassword (auth c) <> []
       /\ latin1 (username (auth c) ++ js ":" ++ appPassword (auth c)) = false)
      \/ (e = SecurityError
          /\ token (auth c) = []
          /\ (username (auth c) = [] \/ appPassword (auth c) = [])
          /\ w = WindowDenied)
  end.
Proof.
  destruct (getAuthHeader_priority c w) as (H1 & H2 & _).
  pose proof startsWith_Basic as HB.
  assert (Hstore : forall r, header_of_stored r = []
                             \/ startsWith (js "Basic ") (header_of_stored r) = true).
  { intros [[|z st]|]; simpl; auto. }
  destruct (token (auth c)) as [|x tk] eqn:Ht.
  - destruct (username (auth c)) as [|y u] eqn:Hu.
    + rewrite getAuthHeader_storage by auto.
      destruct w as [| |[store|]]; simpl; auto.
      right. repeat split; auto.
    + destruct (appPassword (auth c)) as [|z pw] eqn:Hp.
      * rewrite getAuthHeader_storage by auto.
        destruct w as [| |[store|]]; simpl; auto.
        right. repeat split; auto.
      * rewrite H2 by congruence. unfold btoa.
        destruct (latin1 _) eqn:L; simpl; [auto|].
        left. repeat split; congruence.
  - rewrite H1 by congruence. auto.
Qed.

(** C7: the module does surface exceptions to its caller, through
    [getAuthHeader].  On a host whose user name is "\u20AC", with the
    password "p" and no token, every reader returns and [config] is
    built, and [getAuthHeader] then throws the [InvalidCharacterError]
    of [btoa]; on a host without credentials, in a browser that denies
    storage, it throws a [SecurityError]. *)
Theorem module_surfaces_exceptions :
  (exists c, config wide_host = Normal c
     /\ getAuthHeader c WindowUndefined = Throw InvalidCharacterError)
  /\ (exists c, config sample_host = Normal c
      /\ getAuthHeader c WindowDenied = Throw SecurityError).
Proof.
  split; eexists; (split; [reflexivity|]); reflexivity.
Qed.

(** * Further properties of the module *)

(** ** Shared lemmas *)

Lemma build_flag_eq (m : ImportMeta) (f : ImportMetaEnv -> option bool) :
  build_flag m f = Normal (host_flag m f).
Proof. destruct m as [|[e|]]; reflexivity. Qed.

Lemma string_of_nonempty (m : ImportMeta) (key d : jsstring) :
  d <> [] -> string_of m key d <> [].
Proof.
  intros Hd. unfold string_of, or_default.
  destruct (env_value m key) as [[|x s]|]; simpl; congruence.
Qed.

Lemma Basic_nonempty (t : jsstring) : Basic t <> [].
Proof. discriminate. Qed.

(** ** [getEnv] and the string fields *)

(** X1: a variable set to a non-empty string is returned as it is,
    whatever the default, by [getEnv] and in each of the thirty string
    fields of [config]. *)
Theorem set_variable_overrides_default (m : ImportMeta) :
  (forall key d s,
      env_value m key = Some s -> s <> [] -> getEnv m key d = Normal s)
  /\ exists c, config m = Normal c
      /\ Forall (fun '(k, d, f) =>
                  forall s, env_value m k = Some s -> s <> [] -> f c = s)
           string_keys.
Proof.
  split.
  - intros key d s H Hs. rewrite getEnv_eq. f_equal.
    now apply (string_of_set m key d s).
  - destruct (config_fields m) as (c & Hc & Hs & _).
    exists c. split; [exact Hc|].
    eapply Forall_impl; [exact Hs|].
    intros [[k d] f] -> s. apply string_of_set.
Qed.

Lemma set_variable_overrides_default_witness :
  exists c, config token_host = Normal c
    /\ wordpress (api c) = js "https://example.org/wp-json/wp/v2"
    /\ token (auth c) = js "abc123".
Proof.
  destruct (set_variable_overrides_default token_host) as (_ & c & Hc & HF).
  exists c. split; [exact Hc|].
  split.
  - apply (Forall_lookup_1 _ _ 1%nat _ HF eq_refl); [reflexivity | discriminate].
  - apply (Forall_lookup_1 _ _ 5%nat _ HF eq_refl); [reflexivity | discriminate].
Defined.

(** X3: with a non-empty default, [getEnv] never returns the empty
    string; so no string field of [config] that has a non-empty default
    is ever empty. *)
Theorem nonempty_default_never_empty (m : ImportMeta) :
  (forall key d, d <> [] -> exists v, getEnv m key d = Normal v /\ v <> [])
  /\ exists c, config m = Normal c
      /\ Forall (fun '(k, d, f) => d <> [] -> f c <> []) string_keys.
Proof.
  split.
  - intros key d Hd. rewrite getEnv_eq. eexists. split; [reflexivity|].
    now apply string_of_nonempty.
  - destruct (config_fields m) as (c & Hc & Hs & _).
    exists c. split; [exact Hc|].
    eapply Forall_impl; [exact Hs|].
    intros [[k d] f] ->. apply string_of_nonempty.
Qed.

Lemma nonempty_default_never_empty_witness :
  exists c, config sample_host = Normal c /\ jwtExpiration (auth c) <> [].
Proof.
  destruct (nonempty_default_never_empty sample_host) as (_ & c & Hc & HF).
  exists c. split; [exact Hc|].
  apply (Forall_lookup_1 _ _ 7%nat _ HF eq_refl). discriminate.
Defined.

(** ** The feature flags and [isFeatureEnabled] *)

(** X2: [getEnvBoolean] can turn a flag on and never off.  With the
    default [true] it returns [true] whatever the environment, so
    [reviews], [wishlist] and [notifications] are enabled on every
    host; [chat] is enabled exactly when [VITE_ENABLE_CHAT] is the
    string "true". *)
Theorem flags_only_turn_on (m : ImportMeta) :
  (forall key, getEnvBoolean m key true = Normal true)
  /\ exists c, config m = Normal c
      /\ isFeatureEnabled c Freviews = true
      /\ isFeatureEnabled c Fwishlist = true
      /\ isFeatureEnabled c Fnotifications = true
      /\ (isFeatureEnabled c Fchat = true
          <-> env_value m (js "VITE_ENABLE_CHAT") = Some (js "true")).
Proof.
  split.
  - intros key. rewrite getEnvBoolean_eq. now rewrite orb_true_r.
  - destruct (config_fields m) as (c & Hc & _ & _ & Hb & _).
    exists c. split; [exact Hc|].
    pose proof (Forall_lookup_1 _ _ 0%nat _ Hb eq_refl) as Hr.
    pose proof (Forall_lookup_1 _ _ 1%nat _ Hb eq_refl) as Hw.
    pose proof (Forall_lookup_1 _ _ 2%nat _ Hb eq_refl) as Hch.
    pose proof (Forall_lookup_1 _ _ 3%nat _ Hb eq_refl) as Hn.
    simpl in Hr, Hw, Hch, Hn. unfold isFeatureEnabled.
    rewrite Hr, Hw, Hch, Hn. unfold boolean_of.
    rewrite !orb_true_r, orb_false_r. repeat split; try reflexivity.
    + intros H%str_eqb_eq. unfold string_of, or_default in H.
      destruct (env_value m (js "VITE_ENABLE_CHAT")) as [[|x s]|];
        simpl in H; try discriminate. now rewrite H.
    + intros H. unfold string_of. rewrite H. reflexivity.
Qed.

(** ** [getApiUrl] *)

(** X4: for each of the three services, [getApiUrl] returns the value
    of the service's variable when it is set and non-empty, and the
    default URL otherwise; it never returns the empty string. *)
Theorem getApiUrl_value (m : ImportMeta) :
  exists c, config m = Normal c
    /\ forall s,
        (unset m (service_key s) -> getApiUrl c s = service_default s)
        /\ (forall v, env_value m (service_key s) = Some v -> v <> [] ->
                      getApiUrl c s = v)
        /\ getApiUrl c s <> [].
Proof.
  destruct (config_fields m) as (c & Hc & Hs & _).
  exists c. split; [exact Hc|].
  pose proof (Forall_lookup_1 _ _ 0%nat _ Hs eq_refl) as Hg.
  pose proof (Forall_lookup_1 _ _ 1%nat _ Hs eq_refl) as Hw.
  pose proof (Forall_lookup_1 _ _ 2%nat _ Hs eq_refl) as Hd.
  simpl in Hg, Hw, Hd.
  intros [| |]; unfold getApiUrl, service_key, service_default;
    rewrite ?Hg, ?Hw, ?Hd; repeat split;
    try apply string_of_unset; try (intros v; apply string_of_set);
    apply string_of_nonempty; discriminate.
Qed.

Lemma getApiUrl_value_witness :
  exists c, config token_host = Normal c
    /\ getApiUrl c Swordpress = js "https://example.org/wp-json/wp/v2"
    /\ getApiUrl c Sdokan = js "https://shoplocal.kinsta.cloud/wp-json/dokan/v1".
Proof.
  destruct (getApiUrl_value token_host) as (c & Hc & H).
  exists c. split; [exact Hc|].
  destruct (H Swordpress) as (_ & Hset & _).
  destruct (H Sdokan) as (Hunset & _).
  split.
  - apply Hset; [reflexivity | discriminate].
  - apply Hunset. now left.
Defined.

(** ** The build-mode fields *)

(** X8: [app.isDevelopment] and [app.isProduction] are [false] when
    there is no [import.meta], [undefined] (not a boolean) when
    [import.meta] has no [env], and the [DEV] and [PROD] flags of the
    environment otherwise; reading them never throws. *)
Theorem build_mode_fields (m : ImportMeta) :
  exists c, config m = Normal c
    /\ isDevelopment (app c)
       = match m with
         | MetaUndefined => Some false
         | MetaObject None => None
         | MetaObject (Some e) => DEV e
         end
    /\ isProduction (app c)
       = match m with
         | MetaUndefined => Some false
         | MetaObject None => None
         | MetaObject (Some e) => PROD e
         end.
Proof.
  eexists. split.
  - unfold config.
    rewrite !getEnv_eq, !getEnvNumber_eq, !getEnvBoolean_eq, !build_flag_eq.
    reflexivity.
  - split; reflexivity.
Qed.

(** ** More on [getAuthHeader] *)

Lemma enc_b64char (v : N) : b64char (enc v) = true.
Proof.
  unfold enc, b64char, pad.
  repeat match goal with
         | |- context [if ?b then _ else _] => destruct b eqn:?
         end;
    repeat match goal with
           | H : (_ <? _) = true |- _ => apply N.ltb_lt in H
           | H : (_ <? _) = false |- _ => apply N.ltb_ge in H
           | H : (_ =? _) = true |- _ => apply N.eqb_eq in H
           | H : (_ =? _) = false |- _ => apply N.eqb_neq in H
           end;
    try reflexivity.
  - replace ((65 <=? v + 65) && (v + 65 <=? 90)) with true; [reflexivity|].
    symmetry. apply andb_true_iff. split; apply N.leb_le; lia.
  - replace ((97 <=? v + 71) && (v + 71 <=? 122)) with true;
      [now rewrite orb_true_r|].
    symmetry. apply andb_true_iff. split; apply N.leb_le; lia.
  - replace ((48 <=? v - 4) && (v - 4 <=? 57)) with true;
      [now rewrite !orb_true_r|].
    symmetry. apply andb_true_iff. split; apply N.leb_le; lia.
Qed.

Lemma encode_b64 (bs : list N) : Forall (fun c => b64char c = true) (encode bs).
Proof.
  induction bs as [|a|a b|a b c r IH] using list_ind3; cbn [encode];
    repeat (constructor; [first [apply enc_b64char | reflexivity]|]);
    first [constructor | exact IH].
Qed.

Lemma encode_length (bs : list N) : (4 | length (encode bs))%nat.
Proof.
  induction bs as [|a|a b|a b c r IH] using list_ind3; cbn [encode length].
  - exists 0%nat. reflexivity.
  - exists 1%nat. reflexivity.
  - exists 1%nat. reflexivity.
  - destruct IH as [k Hk]. exists (S k). rewrite Hk. lia.
Qed.

(** X5: [getAuthHeader] depends on the browser only through the
    outcome of reading the entry [authToken] of its storage (an entry,
    nothing, or a denial), and not at all when the configuration has a
    token or both credentials: two browsers with the same outcome give
    the same result, and with a token or both credentials every
    browser, or none, gives the same result. *)
Theorem getAuthHeader_window_frame (c : Config) (w w' : Window) :
  (storage_read w = storage_read w' -> getAuthHeader c w = getAuthHeader c w')
  /\ (token (auth c) <> []
      \/ (username (auth c) <> [] /\ appPassword (auth c) <> []) ->
      getAuthHeader c w = getAuthHeader c w').
Proof.
  destruct (getAuthHeader_priority c w) as (H1 & H2 & _).
  destruct (getAuthHeader_priority c w') as (H1' & H2' & _).
  assert (Hset : token (auth c) <> []
                 \/ (username (auth c) <> [] /\ appPassword (auth c) <> []) ->
                 getAuthHeader c w = getAuthHeader c w').
  { destruct (token (auth c)) as [|x tk] eqn:Ht.
    - intros [Ht' | [Hu Hp]]; [congruence|].
      now rewrite H2, H2'.
    - intros _. now rewrite H1, H1'. }
  split; [|exact Hset].
  intros Hst.
  destruct (token (auth c)) as [|x tk] eqn:Ht; [|apply Hset; left; congruence].
  destruct (username (auth c)) as [|y u] eqn:Hu.
  { rewrite !getAuthHeader_storage, Hst by auto. reflexivity. }
  destruct (appPassword (auth c)) as [|z p] eqn:Hp.
  { rewrite !getAuthHeader_storage, Hst by auto. reflexivity. }
  apply Hset. right. split; congruence.
Qed.

Lemma getAuthHeader_window_frame_witness :
  exists c, config token_host = Normal c
    /\ getAuthHeader c logged_in = getAuthHeader c WindowUndefined
    /\ getAuthHeader c WindowDenied = getAuthHeader c WindowUndefined.
Proof.
  eexists. split; [reflexivity|].
  split; apply getAuthHeader_window_frame; left; discriminate.
Defined.

(** X6: with no token and credentials within Latin-1, the header is
    "Basic " followed by a string that base64-decodes to
    "username:password": the credentials are carried unchanged. *)
Theorem getAuthHeader_credentials_roundtrip (c : Config) (w : Window) :
  token (auth c) = [] ->
  username (auth c) <> [] ->
  appPassword (auth c) <> [] ->
  latin1 (username (auth c) ++ js ":" ++ appPassword (auth c)) = true ->
  exists t, getAuthHeader c w = Normal (js "Basic " ++ t)
    /\ decode t = Some (username (auth c) ++ js ":" ++ appPassword (auth c)).
Proof.
  intros Ht Hu Hp HL.
  destruct (getAuthHeader_priority c w) as (_ & H2 & _).
  rewrite H2 by assumption. unfold btoa. rewrite HL.
  eexists. split; [reflexivity|]. now apply decode_encode.
Qed.

Lemma getAuthHeader_credentials_roundtrip_witness :
  exists c, config up_host = Normal c
    /\ exists t, getAuthHeader c WindowUndefined = Normal (js "Basic " ++ t)
         /\ decode t = Some (username (auth c) ++ js ":" ++ appPassword (auth c)).
Proof.
  eexists. split; [reflexivity|].
  apply getAuthHeader_credentials_roundtrip;
    [reflexivity | discriminate | discriminate | reflexivity].
Defined.

(** X14: a header built from the credentials has, after "Basic ", only
    characters of the base64 alphabet, in a number that is a multiple
    of four. *)
Theorem getAuthHeader_credentials_alphabet (c : Config) (w : Window) (v : jsstring) :
  token (auth c) = [] ->
  username (auth c) <> [] ->
  appPassword (auth c) <> [] ->
  getAuthHeader c w = Normal v ->
  exists t, v = js "Basic " ++ t
    /\ Forall (fun ch => b64char ch = true) t
    /\ (4 | length t)%nat.
Proof.
  intros Ht Hu Hp.
  destruct (getAuthHeader_priority c w) as (_ & H2 & _).
  rewrite H2 by assumption. unfold btoa.
  destruct (latin1 _); simpl; [|discriminate].
  intros [= <-]. eexists. split; [reflexivity|].
  split; [apply encode_b64 | apply encode_length].
Qed.

Lemma getAuthHeader_credentials_alphabet_witness :
  exists c, config up_host = Normal c
    /\ exists t, getAuthHeader c WindowUndefined = Normal (js "Basic " ++ t)
         /\ Forall (fun ch => b64char ch = true) t
         /\ (4 | length t)%nat.
Proof.
  eexists. split; [reflexivity|].
  match goal with
  | |- exists t, getAuthHeader ?c _ = _ /\ _ =>
      destruct (getAuthHeader_credentials_alphabet c WindowUndefined
                  (js "Basic dTpw") eq_refl
                  ltac:(discriminate) ltac:(discriminate) eq_refl)
        as (t & Hv & Hf & Hl)
  end.
  exists t. split; [rewrite <- Hv; reflexivity|].
  split; assumption.
Defined.

(** X7: [getAuthHeader] returns the empty string exactly when there is
    no source at all: no token, a user name or a password missing, and
    a browser storage that is absent, or is read and holds no non-empty
    [authToken]. *)
Theorem getAuthHeader_empty_iff (c : Config) (w : Window) :
  getAuthHeader c w = Normal []
  <-> token (auth c) = []
      /\ (username (auth c) = [] \/ appPassword (auth c) = [])
      /\ (storage_read w = Normal None \/ storage_read w = Normal (Some [])).
Proof.
  destruct (getAuthHeader_priority c w) as (H1 & H2 & _ & H4).
  assert (Hstore : token (auth c) = [] ->
                   username (auth c) = [] \/ appPassword (auth c) = [] ->
                   getAuthHeader c w = Normal [] ->
                   storage_read w = Normal None
                   \/ storage_read w = Normal (Some [])).
  { intros Ht Hup. rewrite getAuthHeader_storage by assumption.
    destruct (storage_read w) as [[[|z st]|]|e]; simpl; intros [=]; auto. }
  split.
  - destruct (token (auth c)) as [|x tk] eqn:Ht.
    + destruct (username (auth c)) as [|y u] eqn:Hu; [now auto|].
      destruct (appPassword (auth c)) as [|z p] eqn:Hp; [now auto|].
      rewrite H2 by congruence. unfold btoa.
      destruct (latin1 _); simpl; intros [=].
    + rewrite H1 by congruence. intros [=].
  - intros (Ht & Hup & Hst). now apply H4.
Qed.

(** ** More on [security.corsOrigins] *)

Lemma split_on_free (sep : N) (cur x : jsstring) :
  ~ In sep x -> split_on sep cur x = [rev cur ++ x].
Proof.
  revert cur. induction x as [|c r IH]; intros cur Hx; simpl.
  - now rewrite app_nil_r.
  - destruct (N.eqb_spec c sep) as [-> | Hne].
    + exfalso. apply Hx. now left.
    + rewrite IH by (intros H; apply Hx; now right).
      simpl. now rewrite <- app_assoc.
Qed.

Lemma split_on_app (sep : N) (cur x rest : jsstring) :
  ~ In sep x ->
  split_on sep cur (x ++ sep :: rest) = (rev cur ++ x) :: split_on sep [] rest.
Proof.
  revert cur. induction x as [|c r IH]; intros cur Hx; simpl.
  - now rewrite N.eqb_refl, app_nil_r.
  - destruct (N.eqb_spec c sep) as [-> | Hne].
    + exfalso. apply Hx. now left.
    + rewrite IH by (intros H; apply Hx; now right).
      simpl. now rewrite <- app_assoc.
Qed.

(** Joining non-empty segments without separator and splitting again
    gives the segments back. *)
Lemma split_join (sep : N) (xs : list jsstring) :
  Forall (fun o => o <> [] /\ ~ In sep o) xs ->
  filter_Boolean (split sep (join sep xs)) = xs.
Proof.
  induction xs as [|x r IH]; intros H; [reflexivity|].
  inversion H as [|? ? [Hne Hfree] Hr]; subst.
  destruct r as [|y r'].
  - simpl join. unfold split. rewrite split_on_free by assumption.
    destruct x; [congruence | reflexivity].
  - rewrite join_cons by discriminate.
    unfold split. rewrite split_on_app by assumption.
    unfold filter_Boolean. cbn [List.filter rev app].
    destruct x as [|c x]; [congruence|]. cbn [truthy]. f_equal.
    apply (IH Hr).
Qed.

Lemma filter_Boolean_free (sep : N) (l : list jsstring) :
  Forall (fun seg => ~ In sep seg) l ->
  Forall (fun o => o <> [] /\ ~ In sep o) (filter_Boolean l).
Proof.
  unfold filter_Boolean.
  induction 1 as [|x l Hx Hl IH]; simpl; [constructor|].
  destruct x as [|ch x]; simpl; [exact IH|].
  constructor; [split; [discriminate | exact Hx] | exact IH].
Qed.

(** X9: every origin in [security.corsOrigins] is non-empty and has no
    comma, so the list survives a round trip: joined with commas and
    read again the same way, it is unchanged. *)
Theorem corsOrigins_roundtrip (m : ImportMeta) :
  exists c, config m = Normal c
    /\ Forall (fun o => o <> [] /\ ~ In comma o) (corsOrigins (security c))
    /\ filter_Boolean (split comma (join comma (corsOrigins (security c))))
       = corsOrigins (security c).
Proof.
  destruct (config_fields m) as (c & Hc & _ & _ & _ & Hcors).
  exists c. split; [exact Hc|].
  assert (HF : Forall (fun o => o <> [] /\ ~ In comma o)
                 (corsOrigins (security c))).
  { rewrite Hcors. apply filter_Boolean_free, split_spec. }
  split; [exact HF | now apply split_join].
Qed.

(** ** More on the numeric fields *)

Lemma skip_white_all (s : jsstring) :
  forallb is_white s = true -> skip_white s = [].
Proof.
  induction s as [|c r IH]; simpl; [reflexivity|].
  intros [Hc Hr]%andb_true_iff. rewrite Hc. now apply IH.
Qed.

Lemma Number_of_blanks (s : jsstring) :
  forallb is_white s = true -> Number s = S754_zero false.
Proof.
  intros H. unfold Number, trim. now rewrite (skip_white_all s H).
Qed.

(** X10: a numeric variable set to white space only (spaces, tabs,
    line ends) is not treated as missing: the string is non-empty, so
    [Number] is applied and gives 0, not the default. *)
Theorem blank_numeric_variable_is_zero (m : ImportMeta) :
  (forall key d s,
      env_value m key = Some s -> s <> [] -> forallb is_white s = true ->
      getEnvNumber m key d = Normal (S754_zero false))
  /\ exists c, config m = Normal c
      /\ Forall (fun '(k, d, f) =>
                  forall s, env_value m k = Some s -> s <> [] ->
                            forallb is_white s = true ->
                            f c = S754_zero false /\ f c <> d)
           numeric_keys.
Proof.
  split.
  - intros key d s H Hs Hw. rewrite getEnvNumber_eq. f_equal.
    change (number_of m key d = S754_zero false).
    rewrite (number_of_set m key s d H Hs). now apply Number_of_blanks.
  - destruct (config_fields m) as (c & Hc & _ & Hn & _).
    exists c. split; [exact Hc|].
    assert (Hd : Forall (fun '(k, d, f) => S754_zero false <> d) numeric_keys)
      by (repeat constructor; discriminate).
    pose proof (conj Hn Hd) as H%Forall_and.
    eapply Forall_impl; [exact H|].
    intros [[k d] f] [-> Hz] s Hk Hs Hw.
    rewrite (number_of_set m k s d Hk Hs), (Number_of_blanks s Hw). auto.
Qed.

Lemma blank_numeric_variable_is_zero_witness :
  exists c, config token_host = Normal c /\ timeout (api c) = S754_zero false.
Proof.
  destruct (blank_numeric_variable_is_zero token_host) as (_ & c & Hc & HF).
  exists c. split; [exact Hc|].
  apply (Forall_lookup_1 _ _ 0%nat _ HF eq_refl (js "  "));
    [reflexivity | discriminate | reflexivity].
Defined.

(** ** From the environment to the header *)

(** X13: [config] and [getAuthHeader] composed.  A non-empty
    [VITE_API_AUTH_TOKEN] becomes the header "Basic " followed by that
    token, whatever the other variables and the browser; and with
    neither a token nor a user name, outside a browser, the header is
    empty. *)
Theorem header_from_environment (m : ImportMeta) :
  exists c, config m = Normal c
    /\ (forall t w,
          env_value m (js "VITE_API_AUTH_TOKEN") = Some t -> t <> [] ->
          getAuthHeader c w = Normal (js "Basic " ++ t))
    /\ (unset m (js "VITE_API_AUTH_TOKEN") ->
        unset m (js "VITE_WP_USERNAME") ->
        getAuthHeader c WindowUndefined = Normal []).
Proof.
  destruct (config_fields m) as (c & Hc & Hs & _).
  exists c. split; [exact Hc|].
  pose proof (Forall_lookup_1 _ _ 3%nat _ Hs eq_refl) as Hu.
  pose proof (Forall_lookup_1 _ _ 5%nat _ Hs eq_refl) as Ht.
  simpl in Hu, Ht. split.
  - intros t w Hv Hne.
    destruct (getAuthHeader_priority c w) as (H1 & _).
    rewrite H1; rewrite Ht, (string_of_set m _ _ t Hv Hne); auto.
  - intros Hunt Hunu.
    destruct (getAuthHeader_priority c WindowUndefined) as (_ & _ & _ & H4).
    apply H4.
    + rewrite Ht. now apply string_of_unset.
    + left. rewrite Hu. now apply string_of_unset.
    + now left.
Qed.

Lemma header_from_environment_witness :
  exists c, config token_host = Normal c
    /\ getAuthHeader c logged_in = Normal (js "Basic abc123").
Proof.
  destruct (header_from_environment token_host) as (c & Hc & H & _).
  exists c. split; [exact Hc|].
  apply H; [reflexivity | discriminate].
Defined.

(** ** What [config] depends on *)

(** X12: [config] reads the forty-one recognized variables and the two
    build-mode flags, and nothing else: two hosts that agree on these
    give the same configuration, whatever else their environments
    hold. *)
Theorem config_reads_only_recognized (m1 m2 : ImportMeta) :
  Forall (fun k => env_value m1 k = env_value m2 k) recognized_keys ->
  host_flag m1 DEV = host_flag m2 DEV ->
  host_flag m1 PROD = host_flag m2 PROD ->
  config m1 = config m2.
Proof.
  intros H Hd Hp. rewrite Forall_forall in H.
  unfold config.
  rewrite !getEnv_eq, !getEnvNumber_eq, !getEnvBoolean_eq, !build_flag_eq.
  rewrite Hd, Hp.
  repeat match goal with
         | |- context [env_value m1 ?k] =>
             rewrite (H k) by (apply (bool_decide_unpack _); vm_compute; exact I)
         end.
  reflexivity.
Qed.

Lemma config_reads_only_recognized_witness :
  env_value sample_host (js "VITE_UNRELATED")
  <> env_value sample_host_plus (js "VITE_UNRELATED")
  /\ config sample_host = config sample_host_plus.
Proof.
  split; [discriminate|].
  apply config_reads_only_recognized; [|reflexivity..].
  repeat constructor.
Defined.

(** ** Decimal numerals *)

Lemma digit_cases (d : N) :
  d < 10 ->
  d = 0 \/ d = 1 \/ d = 2 \/ d = 3 \/ d = 4
  \/ d = 5 \/ d = 6 \/ d = 7 \/ d = 8 \/ d = 9.
Proof. lia. Qed.

Ltac by_digit d H :=
  destruct (digit_cases d H)
    as [-> | [-> | [-> | [-> | [-> | [-> | [-> | [-> | [-> | ->]]]]]]]]].

Lemma digit_char (d : N) :
  d < 10 -> is_white (d + 48) = false /\ digit 10 (d + 48) = Some d.
Proof. intros H. by_digit d H; split; reflexivity. Qed.

Lemma span_digits_numeral (ds : list N) :
  Forall (fun d => d < 10) ds -> span_digits 10 (numeral ds) = (ds, []).
Proof.
  induction 1 as [|d ds Hd _ IH]; [reflexivity|].
  cbn [numeral map span_digits].
  rewrite (proj2 (digit_char d Hd)).
  change (map (fun d => d + 48) ds) with (numeral ds). now rewrite IH.
Qed.

Lemma skip_white_numeral (ds : list N) :
  Forall (fun d => d < 10) ds -> skip_white (numeral ds) = numeral ds.
Proof.
  intros [|d r Hd _]; [reflexivity|].
  cbn [numeral map skip_white]. now rewrite (proj1 (digit_char d Hd)).
Qed.

Lemma trim_numeral (ds : list N) :
  Forall (fun d => d < 10) ds -> trim (numeral ds) = numeral ds.
Proof.
  intros H. unfold trim. rewrite skip_white_numeral by exact H.
  unfold numeral at 1. rewrite <- map_rev.
  change (map (fun d => d + 48) (rev ds)) with (numeral (rev ds)).
  rewrite skip_white_numeral by now apply Forall_rev.
  unfold numeral. now rewrite map_rev, rev_involutive.
Qed.

Lemma parse_nondecimal_numeral (ds : list N) :
  Forall (fun d => d < 10) ds -> parse_nondecimal (numeral ds) = None.
Proof.
  intros [|d r Hd Hr]; [reflexivity|].
  by_digit d Hd; try reflexivity.
  destruct Hr as [|d1 r1 Hd1 _]; [reflexivity|].
  by_digit d1 Hd1; reflexivity.
Qed.

Lemma sign_free_numeral (ds : list N) :
  Forall (fun d => d < 10) ds ->
  split_sign (numeral ds) = (false, numeral ds)
  /\ str_eqb (numeral ds) (js "Infinity") = false.
Proof.
  intros [|d r Hd _]; [split; reflexivity|].
  by_digit d Hd; split; reflexivity.
Qed.

Lemma digits_value_from (base : N) (ds : list N) (acc : Z) :
  (0 <= acc)%Z ->
  (0 <= fold_left (fun a d => a * Z.of_N base + Z.of_N d) ds acc)%Z.
Proof.
  revert acc. induction ds as [|d ds IH]; intros acc Hacc; simpl; [exact Hacc|].
  apply IH. nia.
Qed.

Lemma digits_value_nonneg (base : N) (ds : list N) : (0 <= digits_value base ds)%Z.
Proof. apply digits_value_from. lia. Qed.

Lemma strip_zeros_length (ds : list N) :
  (length (strip_zeros ds) <= length ds)%nat.
Proof.
  induction ds as [|d ds IH]; simpl; [lia|].
  destruct d; simpl; lia.
Qed.

Lemma parse_unsigned_decimal_numeral (ds : list N) :
  ds <> [] -> Forall (fun d => d < 10) ds ->
  parse_unsigned_decimal (numeral ds)
  = Some (digits_value 10 ds, 0%Z, Z.of_nat (length (strip_zeros ds))).
Proof.
  intros Hne H. unfold parse_unsigned_decimal.
  rewrite span_digits_numeral by exact H.
  rewrite app_nil_r. destruct ds; [congruence | reflexivity].
Qed.

(** An integer with at most 400 digits, scaled by [10^0], is rounded as
    [of_Z] rounds it. *)
Lemma of_decimal_integer (mant n : Z) :
  (0 <= mant)%Z -> (0 <= n <= 400)%Z ->
  of_decimal false mant 0 n = of_Z mant.
Proof.
  intros Hm Hn. unfold of_decimal, of_Z, binary_normalize.
  destruct mant as [|p|p]; [reflexivity| |lia].
  rewrite Z.add_0_l.
  destruct (Z.ltb_spec 400 n); [lia|].
  destruct (Z.ltb_spec n (-400)); [lia|].
  cbn [Z.leb Z.compare Z.pow Z.to_pos Z.pow_pos Pos.iter Z.mul Pos.mul].
  now rewrite Pos.mul_1_r.
Qed.

(** [Number] reads a string of decimal digits as the integer it writes. *)
Lemma Number_numeral (ds : list N) :
  ds <> [] -> Forall (fun d => d < 10) ds -> (length ds <= 400)%nat ->
  Number (numeral ds) = of_Z (digits_value 10 ds).
Proof.
  intros Hne H Hlen. unfold Number.
  rewrite trim_numeral by exact H.
  destruct (numeral ds) as [|ch s] eqn:E.
  { destruct ds; [congruence | discriminate]. }
  rewrite <- E.
  rewrite parse_nondecimal_numeral by exact H.
  destruct (sign_free_numeral ds H) as [-> ->].
  rewrite parse_unsigned_decimal_numeral by assumption.
  apply of_decimal_integer; [apply digits_value_nonneg|].
  pose proof (strip_zeros_length ds). lia.
Qed.

(** X11: a numeric variable written as a decimal numeral (digits only,
    at most 400 of them, leading zeros allowed) gives the binary64
    value of the integer that the digits write, in [getEnvNumber] and
    in each numeric field of [config]. *)
Theorem numeral_variable_is_its_integer (m : ImportMeta) :
  (forall key d ds,
      ds <> [] -> Forall (fun x => x < 10) ds -> (length ds <= 400)%nat ->
      env_value m key = Some (numeral ds) ->
      getEnvNumber m key d = Normal (of_Z (digits_value 10 ds)))
  /\ exists c, config m = Normal c
      /\ Forall (fun '(k, d, f) =>
                  forall ds,
                    ds <> [] -> Forall (fun x => x < 10) ds ->
                    (length ds <= 400)%nat ->
                    env_value m k = Some (numeral ds) ->
                    f c = of_Z (digits_value 10 ds))
           numeric_keys.
Proof.
  assert (Hnum : forall key d ds,
             ds <> [] -> Forall (fun x => x < 10) ds -> (length ds <= 400)%nat ->
             env_value m key = Some (numeral ds) ->
             number_of m key d = of_Z (digits_value 10 ds)).
  { intros key d ds Hne H Hlen Hv.
    rewrite (number_of_set m key (numeral ds) d Hv).
    - now apply Number_numeral.
    - destruct ds; [congruence | discriminate]. }
  split.
  - intros key d ds Hne H Hlen Hv. rewrite getEnvNumber_eq. f_equal.
    now apply Hnum.
  - destruct (config_fields m) as (c & Hc & _ & Hn & _).
    exists c. split; [exact Hc|].
    eapply Forall_impl; [exact Hn|].
    intros [[k d] f] -> ds. apply Hnum.
Qed.

Lemma numeral_variable_is_its_integer_witness :
  exists c, config token_host = Normal c
    /\ port (smtp (email c)) = of_Z 2525.
Proof.
  destruct (numeral_variable_is_its_integer token_host) as (_ & c & Hc & HF).
  exists c. split; [exact Hc|].
  apply (Forall_lookup_1 _ _ 3%nat _ HF eq_refl [2; 5; 2; 5]);
    [discriminate | repeat constructor | simpl; lia | reflexivity].
Defined.

(** ** The storage branch and the exception of [getAuthHeader] *)

Lemma latin1_app (a b : jsstring) : latin1 (a ++ b) = latin1 a && latin1 b.
Proof. unfold latin1. apply forallb_app. Qed.

(** X15: without a token, a user name without a password (or the
    reverse) is not used at all: the header then comes from the browser
    storage alone, "Basic " followed by the stored [authToken] when
    there is a non-empty one, and the empty string when there is no
    [window], no [localStorage], no such entry or an empty one. *)
Theorem getAuthHeader_storage_fallback (c : Config) :
  token (auth c) = [] ->
  username (auth c) = [] \/ appPassword (auth c) = [] ->
  getAuthHeader c WindowUndefined = Normal []
  /\ getAuthHeader c (WindowObject None) = Normal []
  /\ forall store,
      getAuthHeader c (WindowObject (Some store))
      = Normal match store !! js "authToken" with
               | Some (x :: st) => js "Basic " ++ x :: st
               | _ => []
               end.
Proof.
  intros Ht Hup. rewrite !getAuthHeader_storage by assumption.
  repeat split. intros store. rewrite getAuthHeader_storage by assumption.
  simpl. destruct (store !! js "authToken") as [[|x st]|]; reflexivity.
Qed.

Lemma getAuthHeader_storage_fallback_witness :
  exists c, config sample_host = Normal c
    /\ getAuthHeader c logged_in = Normal (js "Basic stored").
Proof.
  eexists. split; [reflexivity|].
  match goal with
  | |- getAuthHeader ?c _ = _ =>
      exact (proj2 (proj2 (getAuthHeader_storage_fallback c eq_refl
                             (or_introl eq_refl))) _)
  end.
Defined.

Ltac throw_cases :=
  repeat split; intros;
  repeat match goal with
         | H : _ /\ _ |- _ => destruct H
         | H : _ \/ _ |- _ => destruct H
         | H : Throw _ = Throw _ |- _ => injection H as <-
         end;
  try discriminate; try congruence; auto.

(** X16: [getAuthHeader] throws in two cases and no other.  It throws
    the [InvalidCharacterError] of [btoa] exactly when there is no
    token, both credentials are non-empty, and the user name or the
    password has a code unit above U+00FF, whatever the browser.  It
    throws a [SecurityError] exactly when there is no token, a
    credential is missing, and the browser denies storage.  The guards
    on [window] and [localStorage] exclude [ReferenceError] and
    [TypeError]. *)
Theorem getAuthHeader_throws_iff (c : Config) (w : Window) :
  (getAuthHeader c w = Throw InvalidCharacterError
   <-> token (auth c) = []
       /\ username (auth c) <> [] /\ appPassword (auth c) <> []
       /\ (latin1 (username (auth c)) = false
           \/ latin1 (appPassword (auth c)) = false))
  /\ (getAuthHeader c w = Throw SecurityError
      <-> token (auth c) = []
          /\ (username (auth c) = [] \/ appPassword (auth c) = [])
          /\ w = WindowDenied)
  /\ (forall e, getAuthHeader c w = Throw e ->
                e = InvalidCharacterError \/ e = SecurityError).
Proof.
  destruct (getAuthHeader_priority c w) as (H1 & H2 & _).
  assert (HL : latin1 (username (auth c) ++ js ":" ++ appPassword (auth c))
               = latin1 (username (auth c)) && latin1 (appPassword (auth c))).
  { now rewrite !latin1_app. }
  destruct (token (auth c)) as [|x tk] eqn:Ht.
  - destruct (username (auth c)) as [|y u] eqn:Hu;
      [|destruct (appPassword (auth c)) as [|z p] eqn:Hp].
    + rewrite getAuthHeader_storage by auto.
      destruct w as [| |[store|]]; simpl; throw_cases.
    + rewrite getAuthHeader_storage by auto.
      destruct w as [| |[store|]]; simpl; throw_cases.
    + rewrite H2 by congruence. unfold btoa. rewrite HL.
      destruct (latin1 (y :: u)); destruct (latin1 (z :: p)); simpl;
        throw_cases.
  - rewrite H1 by congruence. throw_cases.
Qed.
